(** * SoS worker pool and substep executor

    A shallow embedding of [src/sos/substep_executor.py] and
    [src/sos/workers.py].

    Python code that mutates the process-wide [env] singleton, the
    interpreter's [sys.stdout]/[sys.stderr] and the local variables of a
    running call is written in a small monad that threads a [State],
    returns a value, raises a Python exception or stops the process, and
    logs every observable action as an [Event].

    Everything the two modules import from elsewhere ([prepare_env],
    [validate_step_sig], [RuntimeInfo], [SoS_exec], [psutil], ...) is
    supplied by a [World]: for each such call it says what the call
    returns or raises.  The calls that may raise are the ones the
    executor's failure taxonomy names as sources of failure (signature
    validation, lock acquisition, input verification, the statement
    itself and the re-evaluation of the output); socket sends, logging,
    [clear_output], [sig.set_output], [sig.write], [sig.release] and the
    [psutil] calls return normally. *)

From Stdlib Require Import ZArith String List Bool Lia.
From stdpp Require Import base gmap strings list.

Set Warnings "-register-all".

(** ** Python values and exceptions *)

Inductive Val : Type :=
| VNone
| VBool (b : bool)
| VInt (n : Z)
| VStr (s : string)
| VObj (id : nat)                     (* an opaque object (targets, sections, ...) *)
| VList (l : list Val)                (* a list or a tuple *)
| VDict (d : gmap string Val)
| VExn (e : Exn)
with Exn : Type :=
(* the structured control-flow signals of sos.utils / sos.targets *)
| StopInputGroup (args : list Val)
| TerminateExecution (args : list Val)
| UnknownTarget (args : list Val)
| RemovedTarget (args : list Val)
| UnavailableLock (args : list Val)
(* BaseException subclasses outside Exception *)
| KeyboardInterrupt
| SystemExit (args : list Val)
| OtherBaseException (cls : string) (args : list Val)
(* subprocess.CalledProcessError with its returncode and stderr attributes *)
| CalledProcessError (returncode : Z) (stderr : Val)
| ArgumentError (args : list Val)
| RuntimeError (args : list Val)
| KeyError (args : list Val)
| AssertionError
(* sos.utils.ProcessKilled, raised by the SIGTERM handler *)
| ProcessKilled
(* any other subclass of Exception, by class name *)
| OtherException (cls : string) (args : list Val).

Abbreviation Dict := (gmap string Val).

(** [d.update(m)]: the keys of [m] override those of [d]. *)
Definition dict_update (d m : Dict) : Dict := m ∪ d.

(** [e.__class__.__name__] *)
Definition class_name (e : Exn) : string :=
  match e with
  | StopInputGroup _ => "StopInputGroup"
  | TerminateExecution _ => "TerminateExecution"
  | UnknownTarget _ => "UnknownTarget"
  | RemovedTarget _ => "RemovedTarget"
  | UnavailableLock _ => "UnavailableLock"
  | KeyboardInterrupt => "KeyboardInterrupt"
  | SystemExit _ => "SystemExit"
  | OtherBaseException cls _ => cls
  | CalledProcessError _ _ => "CalledProcessError"
  | ArgumentError _ => "ArgumentError"
  | RuntimeError _ => "RuntimeError"
  | KeyError _ => "KeyError"
  | AssertionError => "AssertionError"
  | ProcessKilled => "ProcessKilled"
  | OtherException cls _ => cls
  end.

(** [e.args]; only the generic handler reads it, which the signal
    classes without a payload and [CalledProcessError] never reach. *)
Definition exn_args (e : Exn) : list Val :=
  match e with
  | StopInputGroup a | TerminateExecution a | UnknownTarget a
  | RemovedTarget a | UnavailableLock a | SystemExit a
  | OtherBaseException _ a | ArgumentError a | RuntimeError a
  | KeyError a | OtherException _ a => a
  | KeyboardInterrupt | AssertionError | ProcessKilled
  | CalledProcessError _ _ => []
  end.

(** ** Signature records, jobs, streams *)

(** [RuntimeInfo(step_md5, step_tokens, input, output, depends,
    signature_vars, shared_vars=...)] *)
Record RuntimeInfo := mkRuntimeInfo {
  sig_step_md5 : Val;
  sig_step_tokens : Val;
  sig_input : Val;
  sig_output : Val;
  sig_depends : Val;
  sig_signature_vars : Val;
  sig_shared_vars : Val
}.

(** [sig.set_output(v)] *)
Definition set_output (v : Val) (s : RuntimeInfo) : RuntimeInfo :=
  mkRuntimeInfo (sig_step_md5 s) (sig_step_tokens s) (sig_input s) v
                (sig_depends s) (sig_signature_vars s) (sig_shared_vars s).

(** The keyword arguments of [execute_substep]. *)
Record Job := mkJob {
  stmt : string;
  proc_vars : Dict;
  step_md5 : Val;
  step_tokens : Val;
  shared_vars : Val;
  config : Dict;
  capture_output : bool
}.

(** What [sys.stdout] or [sys.stderr] is bound to: one of the worker's
    normal streams, or a [StringIO] object identified by its allocation
    index. *)
Inductive Stream :=
| ConsoleOut
| ConsoleErr
| StringIO (id : nat).

(** A frame of [traceback.extract_tb]. *)
Record FrameSummary := mkFrame {
  filename : string;
  name : string;
  lineno : nat
}.

(** What an executed statement does: the text it prints on [sys.stdout]
    and [sys.stderr], the namespace it leaves, and the exception it ends
    with, if any. *)
Record Effect := mkEffect {
  printed_out : string;
  printed_err : string;
  namespace : Dict;
  raised : option Exn
}.

Inductive Outcome (A : Type) :=
| Returns (a : A)
| Raises (e : Exn).
Arguments Returns {A} a.
Arguments Raises {A} e.

(** ** Observable actions *)

Inductive Event :=
| EvProgress (event : string) (step_id : Val)
    (* env.controller_push_socket.send_pyobj(['progress', event, step_id]) *)
| EvValidate                        (* validate_step_sig(sig) *)
| EvLock                            (* sig.lock() *)
| EvRelease                         (* sig.release(quiet=True) *)
| EvVerifyInput                     (* verify_input(ignore_sos_variable=True) *)
| EvExec (statement : string)       (* SoS_exec(stmt, ...) *)
| EvSetOutput (v : Val)             (* sig.set_output(v) *)
| EvWrite                           (* sig.write() *)
| EvClearOutput                     (* clear_output() *)
| EvInfoKilling (pids : list nat)   (* logger.info('... Killing subprocesses ...') *)
| EvInfoNoSubprocess                (* logger.info('... No subprocess.') *)
| EvTerminate (pid : nat)           (* p.terminate() *)
| EvWaitProcs (pids : list nat) (timeout : Z)   (* psutil.wait_procs(procs, timeout) *)
| EvKill (pid : nat)                (* p.kill() *)
| EvWarnFailedKill (pid : nat)      (* logger.warning('Failed to kill subprocess ...') *)
| EvResultConnect (port : Val)      (* res_socket = ...socket(zmq.PUSH); res_socket.connect *)
| EvResultSend (res : Dict)         (* res_socket.send_pyobj(res) *)
| EvResultClose                     (* res_socket.close() *)
| EvConnectControllers              (* connect_controllers() *)
| EvSignal (installed : bool)       (* signal.signal(SIGTERM, signal_handler / SIG_DFL) *)
| EvMasterConnect                   (* create_socket(...); env.master_socket.connect(...) *)
| EvMasterSend (v : Val)            (* env.master_socket.send_pyobj(v) *)
| EvMasterRecv (v : Val)            (* env.master_socket.recv_pyobj() returned v *)
| EvKillAllSubprocesses             (* kill_all_subprocesses(os.getpid()) *)
| EvCloseSocket (which : string)    (* close_socket(..., now=True) *)
| EvDisconnectControllers           (* disconnect_controllers(env.zmq_context) *)
| EvResume (v : Val)                (* the step process is resumed with v *)
| EvRequested (v : Val)             (* the step process yielded v *)
| EvStderr (text : string).         (* sys.stderr.write(get_traceback()) *)

(** ** Machine state *)

(** What arrives at the worker while it is blocked in [recv_pyobj]: a
    message of the coordinator, or SIGTERM. *)
Inductive Delivery :=
| Message (v : Val)
| Sigterm.

Record State := mkState {
  (* the [env] singleton *)
  env_config : Dict;
  env_sos_dict : Dict;
  env_verbosity : Z;
  env_sockets_open : bool;          (* zmq context and controller sockets *)
  (* the interpreter's streams *)
  sys_stdout : Stream;
  sys_stderr : Stream;
  stringio : list string;           (* contents of the StringIO objects *)
  console_out : string;             (* text on the worker's normal stdout *)
  console_err : string;
  (* the cross-process lock of the running call's signature *)
  lock_held : bool;
  (* SIGTERM disposition: true when signal_handler is installed *)
  sigterm_handler : bool;
  (* what the master socket will deliver *)
  inbox : list Delivery;
  (* local variables of the running _execute_substep call *)
  sig : option RuntimeInfo;
  outmsg : string;
  errmsg : string
}.

Definition set_env_config (v : Dict) (s : State) : State :=
  mkState v (env_sos_dict s) (env_verbosity s) (env_sockets_open s)
    (sys_stdout s) (sys_stderr s) (stringio s) (console_out s)
    (console_err s) (lock_held s) (sigterm_handler s) (inbox s) (sig s)
    (outmsg s) (errmsg s).
Definition set_env_sos_dict (v : Dict) (s : State) : State :=
  mkState (env_config s) v (env_verbosity s) (env_sockets_open s)
    (sys_stdout s) (sys_stderr s) (stringio s) (console_out s)
    (console_err s) (lock_held s) (sigterm_handler s) (inbox s) (sig s)
    (outmsg s) (errmsg s).
Definition set_env_verbosity (v : Z) (s : State) : State :=
  mkState (env_config s) (env_sos_dict s) v (env_sockets_open s)
    (sys_stdout s) (sys_stderr s) (stringio s) (console_out s)
    (console_err s) (lock_held s) (sigterm_handler s) (inbox s) (sig s)
    (outmsg s) (errmsg s).
Definition set_env_sockets_open (v : bool) (s : State) : State :=
  mkState (env_config s) (env_sos_dict s) (env_verbosity s) v (sys_stdout s)
    (sys_stderr s) (stringio s) (console_out s) (console_err s)
    (lock_held s) (sigterm_handler s) (inbox s) (sig s) (outmsg s)
    (errmsg s).
Definition set_sys_stdout (v : Stream) (s : State) : State :=
  mkState (env_config s) (env_sos_dict s) (env_verbosity s)
    (env_sockets_open s) v (sys_stderr s) (stringio s) (console_out s)
    (console_err s) (lock_held s) (sigterm_handler s) (inbox s) (sig s)
    (outmsg s) (errmsg s).
Definition set_sys_stderr (v : Stream) (s : State) : State :=
  mkState (env_config s) (env_sos_dict s) (env_verbosity s)
    (env_sockets_open s) (sys_stdout s) v (stringio s) (console_out s)
    (console_err s) (lock_held s) (sigterm_handler s) (inbox s) (sig s)
    (outmsg s) (errmsg s).
Definition set_stringio (v : list string) (s : State) : State :=
  mkState (env_config s) (env_sos_dict s) (env_verbosity s)
    (env_sockets_open s) (sys_stdout s) (sys_stderr s) v (console_out s)
    (console_err s) (lock_held s) (sigterm_handler s) (inbox s) (sig s)
    (outmsg s) (errmsg s).
Definition set_console_out (v : string) (s : State) : State :=
  mkState (env_config s) (env_sos_dict s) (env_verbosity s)
    (env_sockets_open s) (sys_stdout s) (sys_stderr s) (stringio s) v
    (console_err s) (lock_held s) (sigterm_handler s) (inbox s) (sig s)
    (outmsg s) (errmsg s).
Definition set_console_err (v : string) (s : State) : State :=
  mkState (env_config s) (env_sos_dict s) (env_verbosity s)
    (env_sockets_open s) (sys_stdout s) (sys_stderr s) (stringio s)
    (console_out s) v (lock_held s) (sigterm_handler s) (inbox s) (sig s)
    (outmsg s) (errmsg s).
Definition set_lock_held (v : bool) (s : State) : State :=
  mkState (env_config s) (env_sos_dict s) (env_verbosity s)
    (env_sockets_open s) (sys_stdout s) (sys_stderr s) (stringio s)
    (console_out s) (console_err s) v (sigterm_handler s) (inbox s) (sig s)
    (outmsg s) (errmsg s).
Definition set_sigterm_handler (v : bool) (s : State) : State :=
  mkState (env_config s) (env_sos_dict s) (env_verbosity s)
    (env_sockets_open s) (sys_stdout s) (sys_stderr s) (stringio s)
    (console_out s) (console_err s) (lock_held s) v (inbox s) (sig s)
    (outmsg s) (errmsg s).
Definition set_inbox (v : list Delivery) (s : State) : State :=
  mkState (env_config s) (env_sos_dict s) (env_verbosity s)
    (env_sockets_open s) (sys_stdout s) (sys_stderr s) (stringio s)
    (console_out s) (console_err s) (lock_held s) (sigterm_handler s) v
    (sig s) (outmsg s) (errmsg s).
Definition set_sig (v : option RuntimeInfo) (s : State) : State :=
  mkState (env_config s) (env_sos_dict s) (env_verbosity s)
    (env_sockets_open s) (sys_stdout s) (sys_stderr s) (stringio s)
    (console_out s) (console_err s) (lock_held s) (sigterm_handler s)
    (inbox s) v (outmsg s) (errmsg s).
Definition set_outmsg (v : string) (s : State) : State :=
  mkState (env_config s) (env_sos_dict s) (env_verbosity s)
    (env_sockets_open s) (sys_stdout s) (sys_stderr s) (stringio s)
    (console_out s) (console_err s) (lock_held s) (sigterm_handler s)
    (inbox s) (sig s) v (errmsg s).
Definition set_errmsg (v : string) (s : State) : State :=
  mkState (env_config s) (env_sos_dict s) (env_verbosity s)
    (env_sockets_open s) (sys_stdout s) (sys_stderr s) (stringio s)
    (console_out s) (console_err s) (lock_held s) (sigterm_handler s)
    (inbox s) (sig s) (outmsg s) v.

(** ** The monad *)

(** Why a process stops without an exception reaching anyone: it waits
    for a message that never comes, it is terminated by the default
    action of SIGTERM, or (an artefact of the model) a loop ran out of
    fuel. *)
Inductive Stop :=
| BlockedOnRecv
| TerminatedBySignal
| OutOfFuel.

Inductive Res (A : Type) :=
| Ok (a : A)
| Raise (e : Exn)
| Halt (h : Stop).
Arguments Ok {A} a.
Arguments Raise {A} e.
Arguments Halt {A} h.

Definition M (A : Type) : Type := State -> Res A * State * list Event.

Definition ret {A} (a : A) : M A := fun st => (Ok a, st, []).

Definition bind {A B} (m : M A) (f : A -> M B) : M B :=
  fun st =>
    match m st with
    | (Ok a, st1, ev1) =>
        match f a st1 with
        | (r, st2, ev2) => (r, st2, ev1 ++ ev2)
        end
    | (Raise e, st1, ev1) => (Raise e, st1, ev1)
    | (Halt h, st1, ev1) => (Halt h, st1, ev1)
    end.

Notation "'let*' x ':=' m 'in' k" := (bind m (fun x => k))
  (at level 10, x name, m at level 100, k at level 200, only parsing).
Notation "m >> k" := (bind m (fun _ => k))
  (at level 90, right associativity, only parsing).

Definition raise {A} (e : Exn) : M A := fun st => (Raise e, st, []).
Definition halt {A} (h : Stop) : M A := fun st => (Halt h, st, []).
Definition gets {A} (f : State -> A) : M A := fun st => (Ok (f st), st, []).
Definition modify (f : State -> State) : M unit := fun st => (Ok tt, f st, []).
Definition emit (e : Event) : M unit := fun st => (Ok tt, st, [e]).

Definition of_outcome {A} (o : Outcome A) : M A :=
  match o with
  | Returns a => ret a
  | Raises e => raise e
  end.

(** [try: m except BaseException as e: h e] where [h] re-raises what it
    does not handle. *)
Definition try_except {A} (m : M A) (h : Exn -> M A) : M A :=
  fun st =>
    match m st with
    | (Raise e, st1, ev1) =>
        match h e st1 with
        | (r, st2, ev2) => (r, st2, ev1 ++ ev2)
        end
    | other => other
    end.

(** [try: m finally: f].  The [finally] suite runs after a return and
    after an exception; an exception of its own replaces the pending
    result.  A process that stopped runs nothing. *)
Definition try_finally {A} (m : M A) (f : M unit) : M A :=
  fun st =>
    match m st with
    | (Halt h, st1, ev1) => (Halt h, st1, ev1)
    | (r, st1, ev1) =>
        match f st1 with
        | (Ok _, st2, ev2) => (r, st2, ev1 ++ ev2)
        | (Raise e, st2, ev2) => (Raise e, st2, ev1 ++ ev2)
        | (Halt h, st2, ev2) => (Halt h, st2, ev1 ++ ev2)
        end
    end.

(** [for x in l: f x] *)
Fixpoint for_each {A} (l : list A) (f : A -> M unit) : M unit :=
  match l with
  | [] => ret tt
  | x :: l' => f x >> for_each l' f
  end.

(** [d[k]] *)
Definition getitem (d : Dict) (k : string) : M Val :=
  match d !! k with
  | Some v => ret v
  | None => raise (KeyError [VStr k])
  end.

(** [env.sos_dict[k]] *)
Definition sos_dict_get (k : string) : M Val :=
  let* d := gets env_sos_dict in getitem d k.

(** ** The world outside the two modules *)

Record World := mkWorld {
  (* sos.executor_utils *)
  w_prepare_env : Dict -> Dict;               (* the namespace prepare_env() builds *)
  w_validate_step_sig : RuntimeInfo -> Outcome Dict;
  w_verify_input : Dict -> Outcome unit;
  w_reevaluate_output : Dict -> Outcome Val;
  (* sos.targets *)
  w_unspecified : Val -> bool;                (* x.unspecified() *)
  w_undetermined : Val -> bool;               (* x.undetermined() *)
  w_lock : RuntimeInfo -> Outcome unit;       (* sig.lock() *)
  w_write : RuntimeInfo -> bool;              (* the truth value of sig.write() *)
  w_content : RuntimeInfo -> Dict;            (* sig.content after the write *)
  (* sos.eval *)
  w_SoS_exec : string -> Dict -> Effect;
  w_script_lines : string -> list string;
      (* [x.rstrip() for x in stmtHash.script(filename).splitlines()] *)
  (* psutil *)
  w_children : list nat;                      (* Process().children(recursive=True) *)
  w_wait_procs : nat -> list nat -> list nat; (* alive, at the n-th wait_procs *)
  (* traceback and str() *)
  w_extract_tb : Exn -> list FrameSummary;
  w_str : Val -> string;
  (* whether sos.utils.ProcessKilled derives from Exception *)
  w_ProcessKilled_is_Exception : bool
}.

(** ** substep_executor.py *)

Definition nl : string := String (Ascii.ascii_of_nat 10) EmptyString.

(** [v == s] for a string literal [s] *)
Definition eq_str (v : Val) (s : string) : bool :=
  match v with
  | VStr t => String.eqb t s
  | _ => false
  end.

(** the truth value of a dict *)
Definition truthy_dict (d : Dict) : bool := negb (Nat.eqb (size d) 0).

(** [io.StringIO()] *)
Definition new_StringIO : M nat :=
  let* bufs := gets stringio in
  modify (set_stringio (bufs ++ [""])) >>
  ret (length bufs).

(** [buf.getvalue()] *)
Definition getvalue (id : nat) : M string :=
  let* bufs := gets stringio in ret (default "" (bufs !! id)).

(** [stream.write(text)] *)
Definition write_stream (s : Stream) (text : string) : M unit :=
  match s with
  | ConsoleOut =>
      let* old := gets console_out in modify (set_console_out (old +:+ text))
  | ConsoleErr =>
      let* old := gets console_err in modify (set_console_err (old +:+ text))
  | StringIO id =>
      let* bufs := gets stringio in
      modify (set_stringio (alter (fun b => b +:+ text) id bufs))
  end.

(** [with stdoutIO() as (out, err): body out err].  The context manager
    is a generator: entering the [with] runs it up to its [yield]; a
    normal exit of the body resumes it after the [yield]; an exception
    in the body is thrown into the generator at the [yield], where
    nothing catches it, so the two assignments after the [yield] are
    not executed and the exception propagates. *)
Definition stdoutIO {A} (body : nat -> nat -> M A) : M A :=
  let* oldout := gets sys_stdout in
  let* olderr := gets sys_stderr in
  let* stdout := new_StringIO in
  let* stderr := new_StringIO in
  modify (set_sys_stdout (StringIO stdout)) >>
  modify (set_sys_stderr (StringIO stderr)) >>
  let* r := body stdout stderr in                  (* yield stdout, stderr *)
  modify (set_sys_stdout oldout) >>
  modify (set_sys_stderr olderr) >>
  ret r.

(** [l[a:b]] for [0 <= a] *)
Definition slice {A} (a b : nat) (l : list A) : list A := take (b - a) (drop a l).

(** [f'{s:42}'] and the like: pad with spaces on the right. *)
Definition ljust (width : nat) (s : string) : string :=
  s +:+ String.concat "" (replicate (width - String.length s) " ").

Definition dashes : string :=
  "---------------------------------------------------------------------------".

Section Executor.
Context (w : World).

(** [SoS_exec(code, ...)]: the statement prints on whatever
    [sys.stdout] and [sys.stderr] are bound to, changes the namespace
    and returns or raises. *)
Definition SoS_exec (code : string) : M unit :=
  emit (EvExec code) >>
  let* d := gets env_sos_dict in
  let eff := w_SoS_exec w code d in
  let* out := gets sys_stdout in
  write_stream out (printed_out eff) >>
  let* err := gets sys_stderr in
  write_stream err (printed_err eff) >>
  modify (set_env_sos_dict (namespace eff)) >>
  match raised eff with
  | Some e => raise e
  | None => ret tt
  end.

Definition validate_step_sig (s : RuntimeInfo) : M Dict :=
  emit EvValidate >> of_outcome (w_validate_step_sig w s).

(** [sig.lock()] *)
Definition lock (s : RuntimeInfo) : M unit :=
  emit EvLock >> of_outcome (w_lock w s) >> modify (set_lock_held true).

(** [sig.release(quiet=True)] *)
Definition release : M unit :=
  emit EvRelease >> modify (set_lock_held false).

Definition verify_input : M unit :=
  emit EvVerifyInput >>
  let* d := gets env_sos_dict in of_outcome (w_verify_input w d).

Definition reevaluate_output : M Val :=
  let* d := gets env_sos_dict in of_outcome (w_reevaluate_output w d).

Definition clear_output : M unit := emit EvClearOutput.

(** Lines 94-100: the signature record, or [None]. *)
Definition make_sig (job : Job) : M (option RuntimeInfo) :=
  let* cfg := gets env_config in
  let* mode := getitem cfg "sig_mode" in
  if eq_str mode "ignore" then ret None
  else
    let* out := sos_dict_get "_output" in
    if w_unspecified w out then ret None
    else
      let* i := sos_dict_get "_input" in
      let* o := sos_dict_get "_output" in
      let* d := sos_dict_get "_depends" in
      let* v := sos_dict_get "__signature_vars__" in
      ret (Some (mkRuntimeInfo (step_md5 job) (step_tokens job) i o d v
                               (shared_vars job))).

(** Lines 88-102, before the [try]. *)
Definition prologue (job : Job) : M unit :=
  let* cfg := gets env_config in
  modify (set_env_config (dict_update cfg (config job))) >>
  let* d := gets env_sos_dict in
  modify (set_env_sos_dict (w_prepare_env w d)) >>
  let* d := gets env_sos_dict in
  modify (set_env_sos_dict (dict_update d (proc_vars job))) >>
  let* s := make_sig job in
  modify (set_sig s) >>
  modify (set_outmsg "") >>
  modify (set_errmsg "").

(** Lines 104-113: [Some res] when the call returns [res] at line
    111, [None] when execution goes on to line 120. *)
Definition check_sig : M (option Dict) :=
  let* s := gets sig in
  match s with
  | Some sg =>
      let* matched := validate_step_sig sg in
      if truthy_dict matched then
        modify (set_sig None) >>
        let* step_id := sos_dict_get "step_id" in
        emit (EvProgress "substep_ignored" step_id) >>
        let* index := sos_dict_get "_index" in
        let* output := getitem matched "output" in
        let* vars := getitem matched "vars" in
        ret (Some (<["shared" := vars]> (<["output" := output]>
                   (<["sig_skipped" := VInt 1]> (<["ret_code" := VInt 0]>
                   (<["index" := index]> ∅))))))
      else
        lock sg >> ret None
  | None => ret None
  end.

(** [res.update({'stdout': outmsg, 'stderr': errmsg})] when
    [capture_output] *)
Definition add_captured (job : Job) (res : Dict) : M Dict :=
  if capture_output job then
    let* o := gets outmsg in
    let* e := gets errmsg in
    ret (dict_update res (<["stderr" := VStr e]> (<["stdout" := VStr o]> ∅)))
  else ret res.

(** Lines 120-131: verify the input, execute the statement, settle an
    undetermined output. *)
Definition execute_stmt (job : Job) : M unit :=
  verify_input >>
  (if capture_output job then
     stdoutIO (fun out err =>
       SoS_exec (stmt job) >>
       let* o := getvalue out in
       modify (set_outmsg o) >>
       let* e := getvalue err in
       modify (set_errmsg e))
   else SoS_exec (stmt job)) >>
  let* step_output := sos_dict_get "step_output" in
  if w_undetermined w step_output then
    let* v := reevaluate_output in
    let* d := gets env_sos_dict in
    modify (set_env_sos_dict (<["_output" := v]> d))
  else ret tt.

(** Lines 132-142: build the result, write the signature, report. *)
Definition complete (job : Job) : M Dict :=
  let* index := sos_dict_get "_index" in
  let res : Dict := <["ret_code" := VInt 0]> (<["index" := index]> ∅) in
  let* s := gets sig in
  let* res :=
    match s with
    | Some sg =>
        let* o := sos_dict_get "_output" in
        emit (EvSetOutput o) >>
        let sg := set_output o sg in
        modify (set_sig (Some sg)) >>
        emit EvWrite >>
        if w_write w sg then
          let* output := getitem (w_content w sg) "output" in
          let* shared := getitem (w_content w sg) "end_context" in
          ret (dict_update res (<["shared" := shared]> (<["output" := output]> ∅)))
        else ret res
    | None => ret res
    end in
  let* res := add_captured job res in
  let* step_id := sos_dict_get "step_id" in
  emit (EvProgress "substep_completed" step_id) >>
  ret res.

(** Lines 120-142. *)
Definition run_stmt (job : Job) : M Dict :=
  execute_stmt job >> complete job.

(** The body of the [try], lines 104-142. *)
Definition try_body (job : Job) : M Dict :=
  let* early := check_sig in
  match early with
  | Some res => ret res
  | None => run_stmt job
  end.

(** Lines 144-148 *)
Definition on_signal (job : Job) (e : Exn) : M Dict :=
  clear_output >>
  let* index := sos_dict_get "_index" in
  add_captured job
    (<["exception" := VExn e]> (<["ret_code" := VInt 1]> (<["index" := index]> ∅))).

(** Lines 150-172 *)
Definition on_interrupt (e : Exn) : M Dict :=
  clear_output >>
  let procs := w_children w in
  let* verbosity := gets env_verbosity in
  match procs with
  | _ :: _ =>
      (if (verbosity >? 2)%Z then emit (EvInfoKilling procs) else ret tt) >>
      for_each procs (fun p => emit (EvTerminate p)) >>
      emit (EvWaitProcs procs 3) >>
      let alive := w_wait_procs w 0 procs in
      match alive with
      | _ :: _ => for_each alive (fun p => emit (EvKill p))
      | [] => ret tt
      end >>
      emit (EvWaitProcs procs 3) >>
      let alive := w_wait_procs w 1 procs in
      match alive with
      | _ :: _ => for_each alive (fun p => emit (EvWarnFailedKill p))
      | [] => ret tt
      end
  | [] =>
      if (verbosity >? 2)%Z then emit EvInfoNoSubprocess else ret tt
  end >>
  raise e.

(** Lines 174-179 *)
Definition on_called_process_error (job : Job) (returncode : Z) (stderr : Val)
  : M Dict :=
  clear_output >>
  let* index := sos_dict_get "_index" in
  add_captured job
    (<["exception" := VExn (RuntimeError [stderr])]>
     (<["ret_code" := VInt returncode]> (<["index" := index]> ∅))).

(** Lines 181-182 *)
Definition on_argument_error (e : Exn) : M Dict :=
  clear_output >>
  let* index := sos_dict_get "_index" in
  ret (<["exception" := VExn e]> (<["ret_code" := VInt 1]> (<["index" := index]> ∅))).

(** Lines 192-193: the marked window around [line_number]. *)
Definition code_window (line_number : nat) (lines : list string) : string :=
  String.concat nl
    (slice (line_number - 3) (line_number + 3)
       (imap (fun i x =>
                (if Nat.eqb (i + 1) line_number then "---->" else "     ")
                  +:+ " " +:+ x)
             lines)).

(** Lines 187-197: the loop over the reversed traceback. *)
Definition traceback_msg (e : Exn) : string :=
  fold_left
    (fun msg st =>
       if String.prefix "script_" (filename st) then
         msg +:+ filename st +:+ " in " +:+ name st +:+ nl
             +:+ code_window (lineno st) (w_script_lines w (filename st)) +:+ nl
       else msg)
    (rev (w_extract_tb w e)) "".

(** Lines 198-203: the RuntimeError that replaces [e]. *)
Definition describe (e : Exn) : Exn :=
  let error_class := class_name e in
  let msg := traceback_msg e in
  let detail := match exn_args e with a :: _ => w_str w a | [] => "" end in
  if negb (String.eqb msg "") then
    RuntimeError [VStr (nl +:+ dashes +:+ nl
                        +:+ ljust 42 error_class
                        +:+ "Traceback (most recent call last)" +:+ nl
                        +:+ msg +:+ nl
                        +:+ error_class +:+ ": " +:+ detail)]
  else RuntimeError [VStr (error_class +:+ ": " +:+ detail)].

(** Lines 184-206 *)
Definition on_exception (job : Job) (e : Exn) : M Dict :=
  clear_output >>
  let* index := sos_dict_get "_index" in
  add_captured job
    (<["exception" := VExn (describe e)]>
     (<["ret_code" := VInt 1]> (<["index" := index]> ∅))).

(** The [except] clauses in their order; an exception no clause
    matches propagates. *)
Definition handlers (job : Job) (e : Exn) : M Dict :=
  match e with
  | StopInputGroup _ | TerminateExecution _ | UnknownTarget _
  | RemovedTarget _ | UnavailableLock _ => on_signal job e
  | KeyboardInterrupt | SystemExit _ => on_interrupt e
  | CalledProcessError returncode stderr =>
      on_called_process_error job returncode stderr
  | ArgumentError _ => on_argument_error e
  | RuntimeError _ | KeyError _ | AssertionError | OtherException _ _ =>
      on_exception job e
  | ProcessKilled =>
      if w_ProcessKilled_is_Exception w then on_exception job e else raise e
  | OtherBaseException _ _ => raise e
  end.

(** Lines 207-210 *)
Definition finally_release : M unit :=
  let* s := gets sig in
  match s with
  | Some _ => release
  | None => ret tt
  end.

Definition _execute_substep (job : Job) : M Dict :=
  prologue job >>
  try_finally (try_except (try_body job) (handlers job)) finally_release.

(** [assert c] *)
Definition assert (c : bool) : M unit :=
  if c then ret tt else raise AssertionError.

(** [k in v] *)
Definition contains (k : string) (v : Val) : M bool :=
  match v with
  | VDict d => ret (bool_decide (is_Some (d !! k)))
  | _ => raise (OtherException "TypeError" [])
  end.

Definition execute_substep (job : Job) : M unit :=
  (* the five assertions on the zmq context and the controller and
     signature sockets *)
  let* open := gets env_sockets_open in
  assert open >>
  assert (bool_decide (is_Some (proc_vars job !! "step_id"))) >>
  assert (bool_decide (is_Some (proc_vars job !! "_index"))) >>
  let* sockets := getitem (config job) "sockets" in
  let* has_port := contains "result_push_socket" sockets in
  assert has_port >>
  try_finally
    (let* sockets := getitem (config job) "sockets" in
     let* port := match sockets with
                  | VDict d => getitem d "result_push_socket"
                  | _ => raise (OtherException "TypeError" [])
                  end in
     emit (EvResultConnect port) >>
     let* res := _execute_substep job in
     emit (EvResultSend res))
    (emit EvResultClose).

End Executor.

(** ** workers.py *)

(** The truth value of a Python object. *)
Definition truthy (v : Val) : bool :=
  match v with
  | VNone => false
  | VBool b => b
  | VInt n => negb (n =? 0)%Z
  | VStr s => negb (String.eqb s "")
  | VList l => match l with [] => false | _ => true end
  | VDict d => truthy_dict d
  | VObj _ | VExn _ => true
  end.

Definition TypeError : Exn := OtherException "TypeError" [].

(** [signal_handler]: [raise ProcessKilled()] *)
Definition signal_handler {A} : M A := raise ProcessKilled.

(** [signal.signal(signal.SIGTERM, ...)] *)
Definition signal_SIGTERM (install : bool) : M unit :=
  emit (EvSignal install) >> modify (set_sigterm_handler install).

(** [env.master_socket.recv_pyobj()]: blocks until the coordinator's
    next message; SIGTERM arriving meanwhile runs the installed handler
    in the worker's main thread, or terminates the process when the
    default action is in place. *)
Definition recv_pyobj : M Val :=
  let* box := gets inbox in
  match box with
  | [] => halt BlockedOnRecv
  | Message v :: rest =>
      modify (set_inbox rest) >> emit (EvMasterRecv v) >> ret v
  | Sigterm :: rest =>
      modify (set_inbox rest) >>
      let* installed := gets sigterm_handler in
      if installed then signal_handler else halt TerminatedBySignal
  end.

Definition connect_controllers : M unit :=
  emit EvConnectControllers >> modify (set_env_sockets_open true).

Definition disconnect_controllers : M unit :=
  emit EvDisconnectControllers >> modify (set_env_sockets_open false).

(** Modelled from the spec: [WorkflowDict.quick_update], of sos.utils,
    is not among the sources; the spec has it merge a mapping into the
    namespace, the merged mapping's values replacing the existing ones. *)
Definition quick_update (m : Dict) : M unit :=
  let* d := gets env_sos_dict in modify (set_env_sos_dict (dict_update d m)).

(** [env.sos_dict.set(k, v)] *)
Definition sos_dict_set (k : string) (v : Val) : M unit :=
  let* d := gets env_sos_dict in modify (set_env_sos_dict (<[k := v]> d)).

(** [if k in env.sos_dict: env.sos_dict.pop(k)] *)
Definition pop_if_present (k : string) : M unit :=
  let* d := gets env_sos_dict in
  if bool_decide (is_Some (d !! k)) then modify (set_env_sos_dict (delete k d))
  else ret tt.

(** Whether [except Exception] catches [e]. *)
Definition is_Exception (w : World) (e : Exn) : bool :=
  match e with
  | KeyboardInterrupt | SystemExit _ | OtherBaseException _ _ => false
  | ProcessKilled => w_ProcessKilled_is_Exception w
  | _ => true
  end.

(** One resumption of a generator: it yields a value and suspends, or
    it returns ([StopIteration]); an exception is a [Raise] of the monad. *)
Inductive Advance (G : Type) :=
| Yielded (v : Val) (g : G)
| Stopped.
Arguments Yielded {G} v g.
Arguments Stopped {G}.

(** What the worker module takes from the rest of the engine.  [G] is
    the state of the suspendable step process [Step_Executor(...).run()];
    resuming it says which messages it pushed on the master socket
    meanwhile and how it suspended, stopped or failed. *)
Record Engine (G : Type) := mkEngine {
  e_version : Val;                                 (* __version__ *)
  e_sos_targets : Val;                             (* sos_targets() *)
  e_load_config_files : Val -> Dict -> Dict;       (* its effect on the namespace *)
  e_global_def : Val -> string;                    (* section.global_def *)
  e_get_traceback : string;                        (* get_traceback() *)
  e_Step_Executor : Val -> Val -> Dict -> G;       (* section, mode, namespace *)
  e_resume : G -> Val -> list Val * Outcome (Advance G);
  e_run_as_nested : Val -> Val -> Val -> Dict -> list Val * Outcome unit
      (* workflow_id, wf, targets, namespace *)
}.
Arguments e_version {G}.
Arguments e_sos_targets {G}.
Arguments e_load_config_files {G}.
Arguments e_global_def {G}.
Arguments e_get_traceback {G}.
Arguments e_Step_Executor {G}.
Arguments e_resume {G}.
Arguments e_run_as_nested {G}.

(** The generator object [self.run_step(...)]: not started yet (its
    arguments are bound), suspended at its [yield] with the inner
    runner, or finished. *)
Inductive RunStep (G : Type) :=
| NotStarted (section : Val) (context shared : Dict) (args : Val)
             (config : Dict) (verbosity : Z)
| Suspended (runner : G)
| Finished.
Arguments NotStarted {G}.
Arguments Suspended {G}.
Arguments Finished {G}.

Section Workers.
Context (w : World) {G : Type} (eng : Engine G).

(** [SoS_Worker.init_dict] *)
Definition init_dict (args : Val) : M unit :=
  sos_dict_set "__args__" args >>
  sos_dict_set "SOS_VERSION" (e_version eng) >>
  sos_dict_set "__step_output__" (e_sos_targets eng) >>
  let* cfg := gets env_config in
  let* config_file := getitem cfg "config_file" in
  let* d := gets env_sos_dict in
  modify (set_env_sos_dict (e_load_config_files eng config_file d)) >>
  SoS_exec w "import os, sys, glob" >>
  SoS_exec w "from sos.runtime import *" >>
  match args with
  | VDict a =>
      (* for key, value in self.args.items():
             if not key.startswith('__'): env.sos_dict.set(key, value) *)
      quick_update (filter (fun kv => String.prefix "__" kv.1 = false) a)
  | _ => ret tt
  end.

(** [SoS_Worker.reset_dict] *)
Definition reset_dict (args : Val) : M unit :=
  modify (set_env_sos_dict ∅) >> init_dict args.

(** Lines 173-180 of run_step *)
Definition exec_global_def (section : Val) : M unit :=
  try_except (SoS_exec w (e_global_def eng section))
    (fun e =>
       match e with
       | CalledProcessError _ stderr => raise (RuntimeError [stderr])
       | RuntimeError _ =>
           let* verbosity := gets env_verbosity in
           (if (verbosity >? 2)%Z then emit (EvStderr (e_get_traceback eng))
            else ret tt) >>
           raise e
       | _ => raise e
       end).

(** Lines 184-192 of run_step *)
Definition prepare_namespace (context shared : Dict) : M unit :=
  for_each ["__step_input__"; "__default_output__"; "__step_output__"]
    pop_if_present >>
  quick_update shared >>
  quick_update context.

(** [runner.send(v)] on the step executor's generator *)
Definition resume_executor (g : G) (v : Val) : M (Advance G) :=
  emit (EvResume v) >>
  let '(sent, o) := e_resume eng g v in
  for_each sent (fun m => emit (EvMasterSend m)) >>
  let* a := of_outcome o in
  match a with
  | Yielded yreq _ => emit (EvRequested yreq)
  | Stopped => ret tt
  end >>
  ret a.

(** Lines 199-204 of run_step: pass on what the inner runner yields,
    finish when it stops. *)
Definition relay_inner (a : Advance G) : Advance (RunStep G) :=
  match a with
  | Yielded yreq g => Yielded yreq (Suspended g)
  | Stopped => Stopped
  end.

(** [runner.send(yres)] on the generator [self.run_step(...)];
    [next(runner)] is [runner.send(None)]. *)
Definition run_step (r : RunStep G) (yres : Val) : M (Advance (RunStep G)) :=
  match r with
  | NotStarted section context shared args config verbosity =>
      let* cfg := gets env_config in
      modify (set_env_config (dict_update cfg config)) >>
      modify (set_env_verbosity verbosity) >>
      reset_dict args >>
      exec_global_def section >>
      prepare_namespace context shared >>
      let* cfg := gets env_config in
      let* mode := getitem cfg "run_mode" in
      let* d := gets env_sos_dict in
      let runner := e_Step_Executor eng section mode d in
      let* a := resume_executor runner VNone in      (* yreq = next(runner) *)
      ret (relay_inner a)
  | Suspended runner =>
      let* a := resume_executor runner yres in       (* yreq = runner.send(yres) *)
      ret (relay_inner a)
  | Finished => ret Stopped
  end.

(** Lines 106-112 of SoS_Worker.run, entered with the request the
    runner has just yielded; left when the runner stops. *)
Fixpoint relay (fuel : nat) (runner : RunStep G) (requested : Val) : M unit :=
  match fuel with
  | O => halt OutOfFuel
  | S fuel' =>
      let* yres := match requested with
                   | VNone => ret VNone
                   | _ => recv_pyobj
                   end in
      let* a := run_step runner yres in
      match a with
      | Yielded requested' runner' => relay fuel' runner' requested'
      | Stopped => ret tt
      end
  end.

(** Lines 103-114 *)
Definition drive_step (fuel : nat) (runner : RunStep G) : M unit :=
  let* a := run_step runner VNone in                 (* requested = next(runner) *)
  match a with
  | Yielded requested runner' => relay fuel runner' requested
  | Stopped => ret tt
  end.

(** [SoS_Worker.run_workflow] *)
Definition run_workflow (workflow_id wf targets args shared : Val)
           (config : Dict) : M unit :=
  let* cfg := gets env_config in
  modify (set_env_config (dict_update cfg config)) >>
  reset_dict args >>
  (match config !! "verbosity" with
   | Some (VInt n) => modify (set_env_verbosity n)
   | Some _ => raise TypeError
   | None => modify (set_env_verbosity 2)
   end) >>
  try_except
    (let* d := gets env_sos_dict in
     let '(sent, o) := e_run_as_nested eng workflow_id wf targets d in
     for_each sent (fun m => emit (EvMasterSend m)) >> of_outcome o)
    (fun e =>
       if is_Exception w e then emit (EvMasterSend (VExn e)) else raise e).

(** [self.run_step( *work[1:])]: binding the six arguments. *)
Definition bind_step_args (rest : list Val) : M (RunStep G) :=
  match rest with
  | [section; VDict context; VDict shared; args; VDict config; VInt verbosity] =>
      ret (NotStarted section context shared args config verbosity)
  | _ => raise TypeError
  end.

(** Lines 101-116: one request. *)
Definition dispatch (fuel : nat) (work : Val) : M unit :=
  match work with
  | VList (kind :: rest) =>
      if eq_str kind "step" then
        let* runner := bind_step_args rest in drive_step fuel runner
      else
        match rest with
        | [workflow_id; wf; targets; args; shared; VDict config] =>
            run_workflow workflow_id wf targets args shared config
        | _ => raise TypeError
        end
  | _ => raise TypeError
  end.

(** Lines 90-125: [true] to go round the loop again, [false] for
    [break]. *)
Definition worker_iteration (fuel : nat) : M bool :=
  try_except
    (let* work := recv_pyobj in
     match work with
     | VNone => signal_SIGTERM false >> ret false
     | _ => dispatch fuel work >> ret true
     end)
    (fun e =>
       match e with
       | ProcessKilled => ret false
       | KeyboardInterrupt => ret false
       | _ => raise e
       end).

Fixpoint worker_loop (fuel : nat) : M unit :=
  match fuel with
  | O => halt OutOfFuel
  | S fuel' =>
      let* again := worker_iteration fuel' in
      if again then worker_loop fuel' else ret tt
  end.

(** Lines 127-130 *)
Definition worker_teardown : M unit :=
  emit EvKillAllSubprocesses >>
  signal_SIGTERM false >>
  emit (EvCloseSocket "master") >>
  disconnect_controllers.

(** [SoS_Worker.run] *)
Definition SoS_Worker_run (fuel : nat) (config : Dict) : M unit :=
  let* cfg := gets env_config in
  modify (set_env_config (dict_update cfg config)) >>
  connect_controllers >>
  signal_SIGTERM true >>
  emit EvMasterConnect >>
  worker_loop fuel >>
  worker_teardown.

(** [execute_substep( **msg)]: binding the keyword arguments, with the
    defaults of the signature. *)
Definition bind_job (msg : Val) : M Job :=
  match msg with
  | VDict d =>
      match d !! "stmt",
            default (VDict ∅) (d !! "proc_vars"),
            default (VDict ∅) (d !! "config"),
            default (VBool false) (d !! "capture_output") with
      | Some (VStr s), VDict pv, VDict cfg, VBool c =>
          ret (mkJob s pv (default VNone (d !! "step_md5"))
                     (default (VList []) (d !! "step_tokens"))
                     (default (VList []) (d !! "shared_vars")) cfg c)
      | _, _, _, _ => raise TypeError
      end
  | _ => raise TypeError
  end.

(** Lines 234-241: the ready/dispatch loop. *)
Fixpoint substep_loop (fuel : nat) : M unit :=
  match fuel with
  | O => halt OutOfFuel
  | S fuel' =>
      emit (EvMasterSend (VStr "READY")) >>
      let* msg := recv_pyobj in
      if negb (truthy msg) then ret tt
      else
        let* job := bind_job msg in
        execute_substep w job >>
        substep_loop fuel'
  end.

(** Lines 243-248 *)
Definition substep_teardown : M unit :=
  signal_SIGTERM false >>
  emit EvKillAllSubprocesses >>
  emit (EvCloseSocket "substep result") >>
  emit (EvCloseSocket "substep backend") >>
  disconnect_controllers.

(** [SoS_SubStep_Worker.run] *)
Definition SoS_SubStep_Worker_run (fuel : nat) (config : Dict) : M unit :=
  let* cfg := gets env_config in
  modify (set_env_config (dict_update cfg config)) >>
  connect_controllers >>
  signal_SIGTERM true >>
  let* sockets := getitem config "sockets" in
  let* _ := match sockets with
            | VDict d => getitem d "substep_backend"
            | _ => raise TypeError
            end in
  emit EvMasterConnect >>
  substep_loop fuel >>
  substep_teardown.

End Workers.

(** ** Vocabulary of the properties *)

(** The classes of the first [except] clause. *)
Definition is_signal (e : Exn) : bool :=
  match e with
  | StopInputGroup _ | TerminateExecution _ | UnknownTarget _
  | RemovedTarget _ | UnavailableLock _ => true
  | _ => false
  end.

(** The classes of the second [except] clause. *)
Definition is_interrupt (e : Exn) : bool :=
  match e with
  | KeyboardInterrupt | SystemExit _ => true
  | _ => false
  end.

Definition is_KeyError (e : Exn) : Prop :=
  match e with
  | KeyError _ => True
  | _ => False
  end.

(** The five [except] clauses of [_execute_substep]. *)
Inductive Clause :=
| SignalClause
| InterruptClause
| CalledProcessClause
| ArgumentClause
| ExceptionClause.

(** The first clause an exception matches, if any. *)
Definition clause_of (w : World) (e : Exn) : option Clause :=
  if is_signal e then Some SignalClause
  else if is_interrupt e then Some InterruptClause
  else match e with
       | CalledProcessError _ _ => Some CalledProcessClause
       | ArgumentError _ => Some ArgumentClause
       | _ => if is_Exception w e then Some ExceptionClause else None
       end.

(** A computation that never stops the process, changes the state
    within [R], logs events in [P] only and raises exceptions in [C]
    only. *)
Definition Executes {A} (R : State -> State -> Prop) (P : Event -> Prop)
           (C : Exn -> Prop) (m : M A) : Prop :=
  forall st r st' ev,
    m st = (r, st', ev) ->
    R st st' /\ Forall P ev /\
    match r with
    | Ok _ => True
    | Raise e => C e
    | Halt _ => False
    end.





(** The events of the body of the [try]. *)
Definition body_event (e : Event) : Prop :=
  match e with
  | EvValidate | EvLock | EvProgress _ _ | EvVerifyInput | EvExec _
  | EvSetOutput _ | EvWrite => True
  | _ => False
  end.

(** The events of the [except] clauses. *)
Definition handler_event (e : Event) : Prop :=
  match e with
  | EvClearOutput | EvInfoKilling _ | EvInfoNoSubprocess | EvTerminate _
  | EvWaitProcs _ _ | EvKill _ | EvWarnFailedKill _ => True
  | _ => False
  end.

(** State changes that leave a signature record in [sig] once there is
    one. *)
Definition keeps_sig (s s' : State) : Prop := sig s <> None -> sig s' <> None.

(** No constraint on the state. *)
Definition any_change (s s' : State) : Prop := True.

Definition any_exn (e : Exn) : Prop := True.

(** What the [finally] suite does to a state and what it logs. *)
Definition released (st : State) : State :=
  match sig st with
  | Some _ => set_lock_held false st
  | None => st
  end.

Definition release_events (st : State) : list Event :=
  match sig st with
  | Some _ => [EvRelease]
  | None => []
  end.

(** A failure record, and a record with the captured text added. *)
Definition failure_record (index : Val) (ret_code : Z) (exn : Exn) : Dict :=
  <["exception" := VExn exn]> (<["ret_code" := VInt ret_code]>
  (<["index" := index]> ∅)).

Definition captured (job : Job) (st : State) (res : Dict) : Dict :=
  if capture_output job then
    dict_update res (<["stderr" := VStr (errmsg st)]>
                     (<["stdout" := VStr (outmsg st)]> ∅))
  else res.

(** ** Sample jobs and worlds *)

Definition demo_sockets : Val :=
  VDict (<["result_push_socket" := VInt 5555]>
         (<["substep_backend" := VInt 5556]> ∅)).

Definition demo_config : Dict :=
  <["sig_mode" := VStr "default"]> (<["sockets" := demo_sockets]> ∅).

Definition demo_proc_vars : Dict :=
  <["step_id" := VInt 7]> (<["_index" := VInt 0]> (<["_input" := VObj 1]>
  (<["_output" := VObj 2]> (<["_depends" := VObj 3]>
  (<["__signature_vars__" := VObj 4]> (<["step_output" := VObj 5]> ∅)))))).

Definition demo_job (capture : bool) : Job :=
  mkJob "run()" demo_proc_vars (VStr "md5") (VList []) (VList [])
        demo_config capture.

Definition demo_content : Dict :=
  <["output" := VObj 2]> (<["end_context" := VDict ∅]>
  (<["vars" := VDict ∅]> ∅)).

(** A world in which validation answers [matched], the statement prints
    on both streams and ends with [exn], the worker has the descendants
    [children], of which all but the first exit on [terminate()] and
    the others on [kill()]. *)
Definition demo_world (matched : Dict) (exn : option Exn)
           (children : list nat) (pk_is_exception : bool) : World :=
  mkWorld (fun _ => ∅)
          (fun _ => Returns matched)
          (fun _ => Returns tt)
          (fun _ => Returns (VObj 6))
          (fun _ => false)
          (fun _ => false)
          (fun _ => Returns tt)
          (fun _ => true)
          (fun _ => demo_content)
          (fun _ d => mkEffect "out" "err" d exn)
          (fun _ => [])
          children
          (fun n procs => match n with O => take 1 procs | _ => [] end)
          (fun _ => [])
          (fun _ => "")
          pk_is_exception.

Definition demo_state : State :=
  mkState ∅ ∅ 2 true ConsoleOut ConsoleErr [] "" "" false true [] None "" "".

(** A step process that asks for one reply, then yields [None], then
    stops. *)
Definition demo_engine : Engine nat :=
  mkEngine nat (VStr "0.19") (VObj 0) (fun _ d => d) (fun _ => "")
           "traceback" (fun _ _ _ => 0)
           (fun g v =>
              match g with
              | 0 => ([VStr "task"], Returns (Yielded (VStr "reply?") 1))
              | 1 => ([], Returns (Yielded VNone 2))
              | _ => ([], Returns Stopped)
              end)
           (fun _ _ _ _ => ([], Returns tt)).

(** The value under [k] of the record a run returned, if it returned
    one. *)
Definition result_field (k : string) (run : Res Dict * State * list Event)
  : option Val :=
  match run.1.1 with
  | Ok res => res !! k
  | _ => None
  end.

(** A world whose statement prints and then raises [StopInputGroup];
    the state a capturing job leaves there, and the state the next,
    successful, job without capture leaves after it. *)
Definition failing_world : World :=
  demo_world ∅ (Some (StopInputGroup [])) [] true.

Definition after_failure : State :=
  (_execute_substep failing_world (demo_job true) demo_state).1.2.

Definition after_next : State :=
  (_execute_substep (demo_world ∅ None [] true) (demo_job false) after_failure).1.2.



(** The job message of the sample job. *)
Definition demo_message : Val :=
  VDict (<["stmt" := VStr "run()"]> (<["proc_vars" := VDict demo_proc_vars]>
        (<["config" := VDict demo_config]> (<["capture_output" := VBool false]> ∅)))).

(** A world in which SIGTERM arrives while the statement runs. *)
Definition killed_world (pk_is_exception : bool) : World :=
  demo_world ∅ (Some ProcessKilled) [] pk_is_exception.

Definition teardown_event (e : Event) : bool :=
  match e with
  | EvKillAllSubprocesses | EvCloseSocket _ | EvDisconnectControllers => true
  | _ => false
  end.

Definition killed_while_waiting : Res unit * State * list Event :=
  SoS_SubStep_Worker_run (demo_world ∅ None [] true) 5 demo_config
    (set_inbox [Sigterm] demo_state).

Definition killed_while_running (pk_is_exception : bool)
  : Res unit * State * list Event :=
  SoS_SubStep_Worker_run (killed_world pk_is_exception) 5 demo_config
    (set_inbox [Message demo_message; Message VNone] demo_state).

(** The signature record of the sample job, the state after its
    prologue (the same in every sample world), the failure of its body
    in a world [w], and its successful run. *)
Definition demo_sig : RuntimeInfo :=
  mkRuntimeInfo (VStr "md5") (VList []) (VObj 1) (VObj 2) (VObj 3) (VObj 4)
                (VList []).

Definition demo_prepared : State :=
  (prologue failing_world (demo_job true) demo_state).1.2.

Definition demo_failure (w : World) : Res Dict * State * list Event :=
  try_body w (demo_job true) demo_prepared.

Definition success_run : Res Dict * State * list Event :=
  _execute_substep (demo_world ∅ None [] true) (demo_job true) demo_state.



Definition signature_event (e : Event) : Prop :=
  match e with
  | EvValidate | EvLock | EvSetOutput _ | EvWrite | EvRelease => True
  | _ => False
  end.

(** State changes that leave [sig] and the lock alone. *)
Definition same_sig (s s' : State) : Prop :=
  sig s' = sig s /\ lock_held s' = lock_held s.

(** A world like the sample one, in which the verification of the
    input, the lock and the write of the signature answer as given. *)
Definition strict_world (verify lock : Outcome unit) (write : bool) : World :=
  mkWorld (fun _ => ∅)
          (fun _ => Returns ∅)
          (fun _ => verify)
          (fun _ => Returns (VObj 6))
          (fun _ => false)
          (fun _ => false)
          (fun _ => lock)
          (fun _ => write)
          (fun _ => demo_content)
          (fun _ d => mkEffect "out" "err" d None)
          (fun _ => [])
          []
          (fun _ _ => [])
          (fun _ => [])
          (fun _ => "")
          true.

(** The sample job with signatures switched off, and a job message
    without variables. *)
Definition unsigned_job : Job :=
  mkJob "run()" demo_proc_vars (VStr "md5") (VList []) (VList [])
        (<["sig_mode" := VStr "ignore"]> demo_config) false.

Definition anonymous_job : Job :=
  mkJob "run()" ∅ (VStr "md5") (VList []) (VList []) demo_config false.

(** An engine whose nested workflow sends one message and fails. *)
Definition failing_engine (e : Exn) : Engine nat :=
  mkEngine nat (VStr "0.19") (VObj 0) (fun _ d => d) (fun _ => "")
           "traceback" (fun _ _ _ => 0)
           (fun _ _ => ([], Returns Stopped))
           (fun _ _ _ _ => ([VStr "progress"], Raises e)).

Definition workflow_config : Dict := <["config_file" := VNone]> ∅.

(** The sample call of the entry point, the sample job without
    signatures, and a step worker that is told to quit. *)
Definition demo_call : Res unit * State * list Event :=
  execute_substep (demo_world ∅ None [] true) (demo_job true) demo_state.

Definition unsigned_run : Res Dict * State * list Event :=
  _execute_substep (demo_world ∅ None [] true) unsigned_job demo_state.


Definition demo_substep_worker_run : Res unit * State * list Event :=
  SoS_SubStep_Worker_run (demo_world ∅ None [] true) 5 demo_config
    (set_inbox [Message demo_message; Message VNone] demo_state).

(** * Properties *)

#[local] Set Warnings "-clear-no-such-hyp".

(** ** Rules for [Executes] *)

Section Rules.
Context (R : State -> State -> Prop) (P : Event -> Prop) (C : Exn -> Prop).
Context `{!Reflexive R, !Transitive R}.

Lemma Executes_ret {A} (a : A) : Executes R P C (ret a).
Proof. intros st r st' ev [= <- <- <-]. auto. Qed.

Lemma Executes_gets {A} (f : State -> A) : Executes R P C (gets f).
Proof. intros st r st' ev [= <- <- <-]. auto. Qed.

Lemma Executes_raise {A} (e : Exn) : C e -> Executes R P C (@raise A e).
Proof. intros He st r st' ev [= <- <- <-]. auto. Qed.

Lemma Executes_emit (e : Event) : P e -> Executes R P C (emit e).
Proof. intros He st r st' ev [= <- <- <-]. auto. Qed.

Lemma Executes_modify (f : State -> State) :
  (forall st, R st (f st)) -> Executes R P C (modify f).
Proof. intros Hf st r st' ev [= <- <- <-]. auto. Qed.

Lemma Executes_bind {A B} (m : M A) (f : A -> M B) :
  Executes R P C m -> (forall a, Executes R P C (f a)) ->
  Executes R P C (bind m f).
Proof.
  intros Hm Hf st r st' ev. unfold bind.
  destruct (m st) as [[r1 st1] ev1] eqn:E1.
  destruct (Hm _ _ _ _ E1) as (HR1 & HP1 & HC1).
  destruct r1 as [a | e | h]; [ | intros [= <- <- <-]; auto | done ].
  destruct (f a st1) as [[r2 st2] ev2] eqn:E2.
  destruct (Hf a _ _ _ _ E2) as (HR2 & HP2 & HC2).
  intros [= <- <- <-]. split; [ by etrans | ].
  split; [ by apply Forall_app | done ].
Qed.

Lemma Executes_of_outcome {A} (o : Outcome A) :
  (forall e, o = Raises e -> C e) -> Executes R P C (of_outcome o).
Proof.
  intros Ho. destruct o as [a | e]; simpl.
  - apply Executes_ret.
  - apply Executes_raise. by apply Ho.
Qed.

Lemma Executes_getitem (d : Dict) (k : string) :
  C (KeyError [VStr k]) -> Executes R P C (getitem d k).
Proof.
  intros Hk. unfold getitem. destruct (d !! k).
  - apply Executes_ret.
  - by apply Executes_raise.
Qed.

Lemma Executes_for_each {A} (l : list A) (f : A -> M unit) :
  (forall x, Executes R P C (f x)) -> Executes R P C (for_each l f).
Proof.
  intros Hf. induction l as [| x l IH]; simpl.
  - apply Executes_ret.
  - apply Executes_bind; auto.
Qed.

Lemma Executes_try_except {A} (m : M A) (h : Exn -> M A) :
  Executes R P any_exn m -> (forall e, Executes R P C (h e)) ->
  Executes R P C (try_except m h).
Proof.
  intros Hm Hh st r st' ev. unfold try_except.
  destruct (m st) as [[r1 st1] ev1] eqn:E1.
  destruct (Hm _ _ _ _ E1) as (HR1 & HP1 & HC1).
  destruct r1 as [a | e | h']; [ intros [= <- <- <-]; auto | | done ].
  destruct (h e st1) as [[r2 st2] ev2] eqn:E2.
  destruct (Hh e _ _ _ _ E2) as (HR2 & HP2 & HC2).
  intros [= <- <- <-]. split; [ by etrans | ].
  split; [ by apply Forall_app | done ].
Qed.

End Rules.

#[local] Instance keeps_sig_refl : Reflexive keeps_sig.
Proof. intros s H. exact H. Qed.

#[local] Instance keeps_sig_trans : Transitive keeps_sig.
Proof. intros s1 s2 s3 H12 H23 H. apply H23, H12, H. Qed.

#[local] Instance any_change_refl : Reflexive any_change.
Proof. intros s. exact I. Qed.

#[local] Instance any_change_trans : Transitive any_change.
Proof. intros s1 s2 s3 _ _. exact I. Qed.

(** One rule, or one case analysis on what the code branches on. *)
Ltac executes_step :=
  first
    [ apply Executes_ret | apply Executes_gets
    | apply Executes_bind; [ apply _ .. | | intros ? ]
    | apply Executes_emit | apply Executes_modify; intros ?
    | apply Executes_raise | apply Executes_getitem
    | apply Executes_of_outcome; intros ? ?
    | apply Executes_for_each; [ apply _ .. | intros ? ]
    | match goal with
      | |- Executes _ _ _ (match ?x with _ => _ end) => destruct x
      end ].

Ltac executes :=
  repeat executes_step; try apply _;
  try done; try (intros H; exact H); try exact I.



Lemma Forall_In {A} (P : A -> Prop) (l : list A) (x : A) :
  Forall P l -> In x l -> P x.
Proof. intros H Hin. by eapply List.Forall_forall in H. Qed.

(** ** Inversion of runs *)

Lemma bind_inv {A B} (m : M A) (f : A -> M B) st r st' ev :
  bind m f st = (r, st', ev) ->
  (exists a st1 ev1 ev2,
      m st = (Ok a, st1, ev1) /\ f a st1 = (r, st', ev2) /\ ev = ev1 ++ ev2)
  \/ (exists e, m st = (Raise e, st', ev) /\ r = Raise e)
  \/ (exists h, m st = (Halt h, st', ev) /\ r = Halt h).
Proof.
  unfold bind. destruct (m st) as [[[a | e | h] st1] ev1].
  - destruct (f a st1) as [[r2 st2] ev2] eqn:E2. intros [= <- <- <-].
    left. by exists a, st1, ev1, ev2.
  - intros [= <- <- <-]. right. left. by exists e.
  - intros [= <- <- <-]. right. right. by exists h.
Qed.

Lemma bind_ok {A B} (m : M A) (f : A -> M B) st a st1 ev1 :
  m st = (Ok a, st1, ev1) ->
  bind m f st = (let '(r, st2, ev2) := f a st1 in (r, st2, ev1 ++ ev2)).
Proof. intros H. unfold bind. rewrite H. by destruct (f a st1) as [[? ?] ?]. Qed.

Lemma bind_raise {A B} (m : M A) (f : A -> M B) st e st1 ev1 :
  m st = (Raise e, st1, ev1) -> bind m f st = (Raise e, st1, ev1).
Proof. intros H. unfold bind. by rewrite H. Qed.

(** Take a run apart along the structure of the code. *)
Ltac inv_run_step :=
  match goal with
  | H : bind _ _ _ = _ |- _ =>
      apply bind_inv in H;
      destruct H as [(? & ? & ? & ? & ? & ? & ?) | [(? & ? & ?) | (? & ? & ?)]];
      simplify_eq
  | H : ret _ _ = _ |- _ => unfold ret in H; simplify_eq
  | H : gets _ _ = _ |- _ => unfold gets in H; simplify_eq
  | H : modify _ _ = _ |- _ => unfold modify in H; simplify_eq
  | H : emit _ _ = _ |- _ => unfold emit in H; simplify_eq
  | H : raise _ _ = _ |- _ => unfold raise in H; simplify_eq
  | H : halt _ _ = _ |- _ => unfold halt in H; simplify_eq
  | H : getitem _ _ _ = _ |- _ => unfold getitem in H
  | H : of_outcome _ _ = _ |- _ => unfold of_outcome in H
  | H : sos_dict_get _ _ = _ |- _ => unfold sos_dict_get in H
  | H : (match ?x with _ => _ end) _ = _ |- _ => destruct x eqn:?
  | H : (fun _ => _) _ _ = _ |- _ => cbv beta in H
  | H : (fun _ => _) _ = _ |- _ => cbv beta in H
  end.

Ltac inv_run := repeat inv_run_step.

(** ** Forward runs *)

Lemma bind_run {A B} (m : M A) (f : A -> M B) st a st1 ev1 r st2 ev2 :
  m st = (Ok a, st1, ev1) -> f a st1 = (r, st2, ev2) ->
  bind m f st = (r, st2, ev1 ++ ev2).
Proof. intros Hm Hf. unfold bind. by rewrite Hm, Hf. Qed.

Lemma for_each_emit {A} (l : list A) (f : A -> Event) st :
  for_each l (fun x => emit (f x)) st = (Ok tt, st, map f l).
Proof.
  induction l as [ | x l IH]; [ done | ].
  simpl. unfold bind, emit at 1. by rewrite IH.
Qed.

Lemma for_each_emit_if_any {A} (l : list A) (f : A -> Event) st :
  match l with
  | _ :: _ => for_each l (fun x => emit (f x))
  | [] => ret tt
  end st = (Ok tt, st, map f l).
Proof. destruct l; [ done | apply for_each_emit ]. Qed.

Lemma getitem_run (d : Dict) k v st :
  d !! k = Some v -> getitem d k st = (Ok v, st, []).
Proof. intros H. unfold getitem. by rewrite H. Qed.

Lemma try_finally_run {A} (m : M A) (f : M unit) st r st1 ev1 st2 ev2 :
  m st = (r, st1, ev1) -> (forall h, r <> Halt h) ->
  f st1 = (Ok tt, st2, ev2) ->
  try_finally m f st = (r, st2, ev1 ++ ev2).
Proof.
  intros Hm Hr Hf. unfold try_finally. rewrite Hm, Hf.
  destruct r; [ done | done | by destruct (Hr h) ].
Qed.

(** Run the code forward from a state, one statement after the other,
    reading dictionary entries from the hypotheses. *)
Ltac run :=
  cbv beta iota;
  lazymatch goal with
  | |- bind _ _ _ = _ =>
      first [ eapply bind_run; [ run | run ] | eapply bind_raise; run ]
  | |- for_each _ (fun x => emit _) _ = _ => apply for_each_emit
  | |- match _ with [] => ret tt | _ :: _ => for_each _ _ end _ = _ =>
      apply for_each_emit_if_any
  | |- getitem _ _ _ = _ => apply getitem_run; simpl; eassumption
  | |- sos_dict_get _ _ = _ => unfold sos_dict_get; run
  | |- assert _ _ = _ => unfold assert; run
  | |- try_finally _ _ _ = _ =>
      eapply try_finally_run; [ run | intros ?; discriminate | run ]
  | |- of_outcome ?o _ = _ =>
      first [ reflexivity
            | lazymatch goal with
              | H : o = _ |- _ => rewrite H; reflexivity
              end ]
  | |- (if ?b then _ else _) _ = _ =>
      lazymatch goal with
      | H : b = _ |- _ => rewrite H; run
      end
  | |- (match ?x with _ => _ end) _ = _ =>
      lazymatch goal with
      | H : x = _ |- _ => rewrite H; run
      end
  | |- _ => first [ eassumption | reflexivity ]
  end.

(** Replace the run on the left by its result. *)
Ltac run_lhs :=
  lazymatch goal with
  | |- ?lhs = _ =>
      let H := fresh "Hrun" in
      eassert (lhs = _) as H by run;
      rewrite H; clear H
  end.


Section ExecutorFacts.
Context (w : World).

Lemma prologue_silent job :
  Executes any_change (fun _ => False) any_exn (prologue w job).
Proof. unfold prologue, make_sig, sos_dict_get. executes. Qed.

Lemma execute_stmt_keeps job :
  Executes keeps_sig (fun e => body_event e /\ e <> EvLock /\ e <> EvWrite)
           any_exn (execute_stmt w job).
Proof.
  unfold execute_stmt, verify_input, stdoutIO, SoS_exec, new_StringIO,
    getvalue, write_stream, reevaluate_output, sos_dict_get.
  executes.
Qed.

Lemma complete_keeps job :
  Executes keeps_sig (fun e => body_event e /\ e <> EvLock) is_KeyError
           (complete w job).
Proof.
  unfold complete, add_captured, sos_dict_get. executes.
Qed.

Lemma handlers_keep job e :
  Executes keeps_sig handler_event any_exn (handlers w job e).
Proof.
  unfold handlers, on_signal, on_interrupt, on_called_process_error,
    on_argument_error, on_exception, add_captured, clear_output, sos_dict_get.
  executes.
Qed.

Lemma check_sig_spec st r st' ev :
  check_sig w st = (r, st', ev) ->
  Forall (fun e => body_event e /\ e <> EvWrite) ev /\
  (In EvLock ev -> sig st' <> None) /\
  (forall h, r <> Halt h).
Proof.
  unfold check_sig, validate_step_sig, lock. intros H. inv_run.
  all: simpl; split; [ repeat constructor; done | split; [ | done ] ].
  all: try (intros Hin; repeat destruct Hin as [Hin | Hin]; done).
  all: intros _; congruence.
Qed.

Lemma finally_release_run st :
  finally_release st = (Ok tt, released st, release_events st).
Proof.
  unfold finally_release, released, release_events, bind, gets, release.
  by destruct (sig st).
Qed.

Lemma add_captured_run job res st :
  add_captured job res st = (Ok (captured job st res), st, []).
Proof. unfold add_captured, captured. by destruct (capture_output job). Qed.

(** The body of the [try] logs body events only; once it has called
    [sig.lock()] the local [sig] stays bound to the record; and after
    [sig.write()] nothing but a missing key can fail. *)
Lemma try_body_spec job st r st' ev :
  try_body w job st = (r, st', ev) ->
  Forall body_event ev /\
  (In EvLock ev -> sig st' <> None) /\
  (forall h, r <> Halt h) /\
  (forall e, r = Raise e -> In EvWrite ev -> is_KeyError e).
Proof.
  unfold try_body, run_stmt. intros H.
  apply bind_inv in H
    as [(early & st1 & ev1 & ev2 & Hc & Hk & ->) | [(e & Hc & ->) | (h & Hc & ->)]];
    destruct (check_sig_spec _ _ _ _ Hc) as (Hev & Hlock & Hhalt);
    [ | | by destruct (Hhalt h) ].
  - destruct early as [res | ].
    + unfold ret in Hk. simplify_eq. rewrite app_nil_r.
      split; [ eapply Forall_impl; [ exact Hev | by intros ? [? ?] ] | ].
      do 2 (split; [ done | ]). done.
    + apply bind_inv in Hk
        as [([] & st2 & ev3 & ev4 & He & Hf & ->) | [(e & He & ->) | (h & He & ->)]];
        destruct (execute_stmt_keeps job _ _ _ _ He) as (K1 & E1 & X1);
        [ | | done ].
      * destruct (complete_keeps job _ _ _ _ Hf) as (K2 & E2 & X2).
        split.
        { repeat apply Forall_app_2; eapply Forall_impl; eauto; simpl; tauto. }
        split.
        { intros Hin. apply K2, K1, Hlock.
          rewrite !in_app_iff in Hin. destruct Hin as [Hin | [Hin | Hin]]; [ done | | ].
          - by destruct (Forall_In _ _ _ E1 Hin) as (_ & ? & _).
          - by destruct (Forall_In _ _ _ E2 Hin) as (_ & ?). }
        split; [ by destruct r | ].
        by intros e ->.
      * split.
        { repeat apply Forall_app_2; eapply Forall_impl; eauto; simpl; tauto. }
        split.
        { intros Hin. apply K1, Hlock.
          rewrite in_app_iff in Hin. destruct Hin as [Hin | Hin]; [ done | ].
          by destruct (Forall_In _ _ _ E1 Hin) as (_ & ? & _). }
        split; [ done | ].
        intros ? _ Hin. exfalso.
        rewrite in_app_iff in Hin. destruct Hin as [Hin | Hin].
        -- by destruct (Forall_In _ _ _ Hev Hin) as (_ & ?).
        -- by destruct (Forall_In _ _ _ E1 Hin) as (_ & _ & ?).
  - split; [ eapply Forall_impl; [ exact Hev | by intros ? [? ?] ] | ].
    do 2 (split; [ done | ]).
    intros ? _ Hin. exfalso.
    by destruct (Forall_In _ _ _ Hev Hin) as (_ & ?).
Qed.

(** The [try] with its [except] clauses. *)
Lemma guarded_spec job st r st' ev :
  try_except (try_body w job) (handlers w job) st = (r, st', ev) ->
  (In EvLock ev -> sig st' <> None) /\ (forall h, r <> Halt h).
Proof.
  unfold try_except.
  destruct (try_body w job st) as [[r1 st1] ev1] eqn:Hb.
  destruct (try_body_spec _ _ _ _ _ Hb) as (Hev & Hlock & Hhalt & _).
  destruct r1 as [res | e | h]; [ | | by destruct (Hhalt h) ].
  - by intros [= <- <- <-].
  - destruct (handlers w job e st1) as [[r2 st2] ev2] eqn:Hh.
    destruct (handlers_keep job e _ _ _ _ Hh) as (K & E & X).
    intros [= <- <- <-]. split; [ | by destruct r2 ].
    intros Hin. apply K, Hlock.
    rewrite in_app_iff in Hin. destruct Hin as [Hin | Hin]; [ done | ].
    destruct (Forall_In _ _ _ E Hin).
Qed.

End ExecutorFacts.

(** C1.  Whenever a call of [_execute_substep] has called [sig.lock()],
    however the call ends (a result, a failure record, a re-raised
    interrupt or any other exception), the [finally] suite has released
    the lock: the release is the last thing the call does and the lock
    is not held afterwards. *)
Theorem lock_released_on_every_exit w job st r st' ev :
  _execute_substep w job st = (r, st', ev) ->
  In EvLock ev ->
  lock_held st' = false /\
  (exists before, ev = before ++ [EvRelease]) /\
  (forall h, r <> Halt h).
Proof.
  unfold _execute_substep. intros H Hin.
  apply bind_inv in H
    as [([] & st0 & ev0 & ev1 & Hp & Hf & ->) | [(e & Hp & ->) | (h & Hp & ->)]];
    destruct (prologue_silent w job _ _ _ _ Hp) as (_ & Hev0 & Hx0);
    [ | | done ].
  2: { destruct ev as [ | x ev]; [ done | by inversion Hev0 ]. }
  destruct ev0 as [ | x ev0]; [ simpl in * | by inversion Hev0 ].
  unfold try_finally in Hf.
  destruct (try_except (try_body w job) (handlers w job) st0)
    as [[r1 st1] ev2] eqn:Hg.
  destruct (guarded_spec _ _ _ _ _ _ Hg) as (Hlock & Hhalt).
  rewrite finally_release_run in Hf.
  assert ((r, st', ev1) = (r1, released st1, ev2 ++ release_events st1)) as Heq
    by (destruct r1; [ done | done | by destruct (Hhalt h) ]).
  injection Heq as -> -> ->.
  unfold released, release_events in *.
  destruct (sig st1) as [sg | ] eqn:Hsig.
  - split; [ done | ]. split; [ by exists ev2 | done ].
  - rewrite app_nil_r in Hin. by destruct (Hlock Hin).
Qed.


(** ** Runs of the pieces of [_execute_substep] *)

Lemma truthy_dict_lookup (d : Dict) k v : d !! k = Some v -> truthy_dict d = true.
Proof.
  intros H. unfold truthy_dict.
  destruct (size d) eqn:Hs; [ | done ].
  apply map_size_empty_iff in Hs. by rewrite Hs, lookup_empty in H.
Qed.

Lemma dict_update_lookup (d m : Dict) k v :
  m !! k = Some v -> dict_update d m !! k = Some v.
Proof. intros H. unfold dict_update. by apply lookup_union_Some_l. Qed.

Section Runs.
Context (w : World).

(** The prologue logs nothing, leaves the namespace that
    [prepare_env()] built, updated with [proc_vars], and touches
    neither the streams nor the lock. *)
Lemma prologue_ok job st st0 ev0 :
  prologue w job st = (Ok tt, st0, ev0) ->
  ev0 = [] /\
  env_sos_dict st0
  = dict_update (w_prepare_env w (env_sos_dict st)) (proc_vars job) /\
  outmsg st0 = "" /\ errmsg st0 = "" /\
  lock_held st0 = lock_held st /\
  sys_stdout st0 = sys_stdout st /\ sys_stderr st0 = sys_stderr st /\
  stringio st0 = stringio st /\
  env_verbosity st0 = env_verbosity st.
Proof.
  unfold prologue, make_sig. intros H. inv_run; simpl; done.
Qed.

Lemma on_signal_run job e st index :
  env_sos_dict st !! "_index" = Some index ->
  on_signal job e st
  = (Ok (captured job st (failure_record index 1 e)), st, [EvClearOutput]).
Proof.
  intros H. unfold on_signal, clear_output, sos_dict_get, getitem.
  unfold bind, emit, gets. simpl. rewrite H. simpl.
  by rewrite add_captured_run.
Qed.

Lemma on_called_process_error_run job rc err st index :
  env_sos_dict st !! "_index" = Some index ->
  on_called_process_error job rc err st
  = (Ok (captured job st (failure_record index rc (RuntimeError [err]))),
     st, [EvClearOutput]).
Proof.
  intros H. unfold on_called_process_error, clear_output, sos_dict_get, getitem.
  unfold bind, emit, gets. simpl. rewrite H. simpl.
  by rewrite add_captured_run.
Qed.

Lemma on_argument_error_run e st index :
  env_sos_dict st !! "_index" = Some index ->
  on_argument_error e st
  = (Ok (failure_record index 1 e), st, [EvClearOutput]).
Proof.
  intros H. unfold on_argument_error, clear_output, sos_dict_get, getitem.
  unfold bind, emit, gets. simpl. by rewrite H.
Qed.

Lemma on_exception_run job e st index :
  env_sos_dict st !! "_index" = Some index ->
  on_exception w job e st
  = (Ok (captured job st (failure_record index 1 (describe w e))),
     st, [EvClearOutput]).
Proof.
  intros H. unfold on_exception, clear_output, sos_dict_get, getitem.
  unfold bind, emit, gets. simpl. rewrite H. simpl.
  by rewrite add_captured_run.
Qed.


(** A failure of the body, handled by the clause that matches it. *)
Lemma execute_with_failure job st st0 ev0 e st1 ev1 r st2 ev2 :
  prologue w job st = (Ok tt, st0, ev0) ->
  try_body w job st0 = (Raise e, st1, ev1) ->
  handlers w job e st1 = (r, st2, ev2) ->
  (forall h, r <> Halt h) ->
  _execute_substep w job st
  = (r, released st2, ev1 ++ ev2 ++ release_events st2).
Proof.
  intros Hp Hb Hh Hhalt.
  destruct (prologue_ok _ _ _ _ Hp) as (-> & _).
  unfold _execute_substep. rewrite (bind_ok _ _ _ _ _ _ Hp).
  unfold try_finally, try_except. rewrite Hb, Hh, finally_release_run.
  rewrite <- app_assoc.
  destruct r; [ done | done | by destruct (Hhalt h) ].
Qed.

End Runs.

(** ** The signature short-circuit *)

(** C2.  When a signature record was constructed and validation finds
    a matching prior record (a record holding the stored output and the
    stored shared context), [_execute_substep] returns at once the
    result [{index, ret_code: 0, sig_skipped: 1, output, shared}] with
    the stored output and context; all it has done is to validate and
    to send one 'substep_ignored' progress event: the statement is not
    executed, the lock is neither taken nor released. *)
Theorem matching_signature_skips w job st st0 ev0 sg matched
        output vars index step_id :
  prologue w job st = (Ok tt, st0, ev0) ->
  sig st0 = Some sg ->
  w_validate_step_sig w sg = Returns matched ->
  matched !! "output" = Some output ->
  matched !! "vars" = Some vars ->
  proc_vars job !! "_index" = Some index ->
  proc_vars job !! "step_id" = Some step_id ->
  _execute_substep w job st
  = (Ok (<["shared" := vars]> (<["output" := output]>
         (<["sig_skipped" := VInt 1]> (<["ret_code" := VInt 0]>
         (<["index" := index]> ∅))))),
     set_sig None st0,
     [EvValidate; EvProgress "substep_ignored" step_id]).
Proof.
  intros Hp Hsig Hval Hout Hvars Hindex Hstep.
  destruct (prologue_ok _ _ _ _ _ Hp) as (-> & Hns & _).
  pose proof (truthy_dict_lookup _ _ _ Hout) as Htruthy.
  assert (env_sos_dict st0 !! "_index" = Some index) as Hi
    by (rewrite Hns; by apply dict_update_lookup).
  assert (env_sos_dict st0 !! "step_id" = Some step_id) as Hs
    by (rewrite Hns; by apply dict_update_lookup).
  assert (check_sig w st0
          = (Ok (Some (<["shared" := vars]> (<["output" := output]>
                       (<["sig_skipped" := VInt 1]> (<["ret_code" := VInt 0]>
                       (<["index" := index]> ∅)))))),
             set_sig None st0,
             [EvValidate; EvProgress "substep_ignored" step_id])) as Hc.
  { unfold check_sig, validate_step_sig. run_lhs. reflexivity. }
  unfold _execute_substep. rewrite (bind_ok _ _ _ _ _ _ Hp).
  erewrite try_finally_run; [ | | | apply finally_release_run ].
  2: { unfold try_except, try_body.
       erewrite bind_run; [ | exact Hc | reflexivity ]. reflexivity. }
  2: done.
  reflexivity.
Qed.


Lemma captured_lookup job st (res : Dict) k :
  k <> "stdout" -> k <> "stderr" -> captured job st res !! k = res !! k.
Proof.
  intros H1 H2. unfold captured, dict_update.
  destruct (capture_output job); [ | done ].
  apply lookup_union_r. by rewrite !lookup_insert_ne, lookup_empty.
Qed.

Lemma captured_stdout job st (res : Dict) :
  capture_output job = true ->
  captured job st res !! "stdout" = Some (VStr (outmsg st)) /\
  captured job st res !! "stderr" = Some (VStr (errmsg st)).
Proof.
  intros H. unfold captured, dict_update. rewrite H.
  split; by apply lookup_union_Some_l.
Qed.

Lemma failure_record_dom index rc e :
  dom (failure_record index rc e) = {[ "index"; "ret_code"; "exception" ]}.
Proof.
  unfold failure_record. rewrite !dom_insert_L, dom_empty_L. set_solver.
Qed.

Lemma captured_dom job st (res : Dict) :
  capture_output job = true ->
  dom (captured job st res) = dom res ∪ {[ "stdout"; "stderr" ]}.
Proof.
  intros H. unfold captured, dict_update. rewrite H.
  rewrite dom_union_L, !dom_insert_L, dom_empty_L. set_solver.
Qed.
Lemma failure_record_lookup index rc e :
  failure_record index rc e !! "index" = Some index /\
  failure_record index rc e !! "ret_code" = Some (VInt rc) /\
  failure_record index rc e !! "exception" = Some (VExn e) /\
  failure_record index rc e !! "stdout" = None /\
  failure_record index rc e !! "stderr" = None.
Proof. unfold failure_record. repeat split; reflexivity. Qed.
(** What the finally suite adds to a body that took the lock. *)
Lemma release_after_lock w job st r st1 ev1 (tail : list Event) :
  try_body w job st = (r, st1, ev1) ->
  Forall handler_event tail ->
  In EvLock (ev1 ++ tail ++ release_events st1) ->
  lock_held (released st1) = false /\
  exists before, ev1 ++ tail ++ release_events st1 = before ++ [EvRelease].
Proof.
  intros Hb Htail Hin.
  destruct (try_body_spec _ _ _ _ _ _ Hb) as (_ & Hlock & _).
  unfold released, release_events in *.
  destruct (sig st1) as [sg | ] eqn:Hsig.
  - split; [ done | ]. exists (ev1 ++ tail). by rewrite app_assoc.
  - exfalso. rewrite app_nil_r, in_app_iff in Hin.
    destruct Hin as [Hin | Hin]; [ by apply Hlock | ].
    destruct (Forall_In _ _ _ Htail Hin).
Qed.

(** C5.  A job whose body fails with one of the structured signals
    gets the record [{index, ret_code: 1, exception: <the signal>}]
    (with the captured text when capture is on) as its result; a lock
    taken by the call is released on the way out, and the signature is
    not written. *)
Theorem signal_failure_is_reported w job st st0 ev0 e st1 ev1 index :
  prologue w job st = (Ok tt, st0, ev0) ->
  try_body w job st0 = (Raise e, st1, ev1) ->
  is_signal e = true ->
  env_sos_dict st1 !! "_index" = Some index ->
  exists res ev,
    _execute_substep w job st = (Ok res, released st1, ev) /\
    res = captured job st1 (failure_record index 1 e) /\
    res !! "index" = Some index /\
    res !! "ret_code" = Some (VInt 1) /\
    res !! "exception" = Some (VExn e) /\
    ev = ev1 ++ [EvClearOutput] ++ release_events st1 /\
    (In EvLock ev ->
     lock_held (released st1) = false /\ exists before, ev = before ++ [EvRelease]) /\
    ~ In EvWrite ev.
Proof.
  intros Hp Hb He Hi.
  assert (handlers w job e st1
          = (Ok (captured job st1 (failure_record index 1 e)), st1, [EvClearOutput]))
    as Hh by (destruct e; try done; by apply on_signal_run).
  eexists _, _. split.
  { eapply execute_with_failure; [ exact Hp | exact Hb | exact Hh | done ]. }
  split; [ done | ].
  rewrite !captured_lookup by done.
  do 4 (split; [ done | ]).
  split.
  { intros Hin. eapply release_after_lock; [ exact Hb | | exact Hin ].
    by repeat constructor. }
  intros Hin.
  destruct (try_body_spec _ _ _ _ _ _ Hb) as (_ & _ & _ & Hw).
  rewrite !in_app_iff in Hin. destruct Hin as [Hin | [Hin | Hin]].
  - specialize (Hw e eq_refl Hin). by destruct e.
  - by destruct Hin as [Hin | []].
  - unfold release_events in Hin. destruct (sig st1); [ | done ].
    by destruct Hin as [Hin | []].
Qed.

(** C7.  A job whose statement fails with [CalledProcessError] gets a
    record whose [ret_code] is the return code of the external process
    and whose [exception] is a plain [RuntimeError] holding the captured
    standard-error text only. *)
Theorem external_failure_is_reported w job st st0 ev0 returncode stderr
        st1 ev1 index :
  prologue w job st = (Ok tt, st0, ev0) ->
  try_body w job st0 = (Raise (CalledProcessError returncode stderr), st1, ev1) ->
  env_sos_dict st1 !! "_index" = Some index ->
  exists res,
    _execute_substep w job st
    = (Ok res, released st1, ev1 ++ [EvClearOutput] ++ release_events st1) /\
    res = captured job st1 (failure_record index returncode (RuntimeError [stderr])) /\
    res !! "index" = Some index /\
    res !! "ret_code" = Some (VInt returncode) /\
    res !! "exception" = Some (VExn (RuntimeError [stderr])).
Proof.
  intros Hp Hb Hi.
  eexists. split.
  { eapply execute_with_failure; [ exact Hp | exact Hb | | done ].
    by apply on_called_process_error_run. }
  split; [ done | ].
  by rewrite !captured_lookup by done.
Qed.

(** C10.  With [capture_output] on, a job that fails with an
    [ArgumentError] gets a record with the keys [index], [ret_code] (1)
    and [exception] and no others, whereas the records of the other
    failures reported in band (a signal, an external command failure,
    any other exception) hold [stdout] and [stderr] as well. *)
Theorem argument_error_omits_captured_text w job st st0 ev0 e st1 ev1 index c :
  prologue w job st = (Ok tt, st0, ev0) ->
  try_body w job st0 = (Raise e, st1, ev1) ->
  capture_output job = true ->
  env_sos_dict st1 !! "_index" = Some index ->
  clause_of w e = Some c ->
  c <> InterruptClause ->
  exists (res : Dict) st2 ev,
    _execute_substep w job st = (Ok res, st2, ev) /\
    match c with
    | ArgumentClause =>
        dom res = {[ "index"; "ret_code"; "exception" ]} /\
        res !! "stdout" = None /\ res !! "stderr" = None /\
        res !! "ret_code" = Some (VInt 1) /\
        res !! "exception" = Some (VExn e)
    | _ =>
        dom res = {[ "index"; "ret_code"; "exception"; "stdout"; "stderr" ]} /\
        res !! "stdout" = Some (VStr (outmsg st1)) /\
        res !! "stderr" = Some (VStr (errmsg st1))
    end.
Proof.
  intros Hp Hb Hcap Hi Hc Hne.
  assert (forall rc x,
             dom (captured job st1 (failure_record index rc x))
             = {[ "index"; "ret_code"; "exception"; "stdout"; "stderr" ]} /\
             captured job st1 (failure_record index rc x) !! "stdout"
             = Some (VStr (outmsg st1)) /\
             captured job st1 (failure_record index rc x) !! "stderr"
             = Some (VStr (errmsg st1))) as Hcaptured.
  { intros rc x. rewrite captured_dom, failure_record_dom by exact Hcap.
      split; [ set_solver | ]. apply captured_stdout. exact Hcap. }
  unfold clause_of in Hc.
  destruct e; cbn [is_signal is_interrupt is_Exception] in Hc.
  all: try destruct (w_ProcessKilled_is_Exception w) eqn:Hpk.
  all: try (injection Hc as <-).
  all: try discriminate Hc.
  all: try (by destruct Hne).
  all: eexists _, _, _; (split;
    [ eapply execute_with_failure; [ exact Hp | exact Hb | | intros h; discriminate ];
      unfold handlers; rewrite ?Hpk;
      lazymatch goal with
      | |- on_signal _ _ _ = _ => apply on_signal_run
      | |- on_called_process_error _ _ _ _ = _ => apply on_called_process_error_run
      | |- on_argument_error _ _ = _ => apply on_argument_error_run
      | |- on_exception _ _ _ _ = _ => apply on_exception_run
      end; exact Hi
    | ]).
  all: try apply Hcaptured.
  all: rewrite failure_record_dom.
  all: destruct (failure_record_lookup index 1 (ArgumentError args))
    as (_ & Hrc & Hexn & Hout & Herr).
  all: by repeat split.
Qed.

(** ** The entry point *)




(** ** Output capture *)

(** C3.  With [capture_output] on, a statement that raises leaves
    [sys.stdout] and [sys.stderr] bound to the buffers of the call: the
    failure record holds no captured text, and what the next job prints
    does not reach the worker's streams but lands in those buffers. *)
Theorem capture_leaks_when_statement_raises :
  sys_stdout demo_state = ConsoleOut /\
  sys_stderr demo_state = ConsoleErr /\
  result_field "ret_code"
    (_execute_substep failing_world (demo_job true) demo_state) = Some (VInt 1) /\
  result_field "stdout"
    (_execute_substep failing_world (demo_job true) demo_state) = Some (VStr "") /\
  sys_stdout after_failure = StringIO 0 /\
  sys_stderr after_failure = StringIO 1 /\
  stringio after_failure = ["out"; "err"] /\
  result_field "ret_code"
    (_execute_substep (demo_world ∅ None [] true) (demo_job false) after_failure)
  = Some (VInt 0) /\
  console_out after_next = "" /\
  console_err after_next = "" /\
  stringio after_next = ["outout"; "errerr"].
Proof. repeat split; reflexivity. Qed.

(** ** The namespace of a step *)





(** ** The relay loop *)


Section Relay.
Context (w : World) {G : Type} (eng : Engine G).



Lemma recv_pyobj_run st :
  recv_pyobj st
  = match inbox st with
    | [] => (Halt BlockedOnRecv, st, [])
    | Message v :: rest => (Ok v, set_inbox rest st, [EvMasterRecv v])
    | Sigterm :: rest =>
        if sigterm_handler st then (Raise ProcessKilled, set_inbox rest st, [])
        else (Halt TerminatedBySignal, set_inbox rest st, [])
    end.
Proof.
  unfold recv_pyobj, bind, gets. simpl.
  destruct (inbox st) as [ | [v | ] rest]; [ done | done | ].
  unfold modify, signal_handler, raise, halt. simpl.
  by destruct (sigterm_handler st).
Qed.





End Relay.


(** ** Workers and SIGTERM *)

(** C6.  The substep worker does not do what the step worker does on
    SIGTERM.  While it waits for a job, [ProcessKilled] leaves [run]
    and the teardown is not executed.  While a statement runs, the same
    happens if [ProcessKilled] is not an [Exception]; if it is one, the
    executor reports it as an ordinary failure record and the worker
    asks for the next job. *)
Theorem substep_worker_mishandles_sigterm :
  (* SIGTERM while the worker waits for a job *)
  killed_while_waiting.1.1 = Raise ProcessKilled /\
  killed_while_waiting.2
  = [EvConnectControllers; EvSignal true; EvMasterConnect;
     EvMasterSend (VStr "READY")] /\
  env_sockets_open killed_while_waiting.1.2 = true /\
  (* SIGTERM during the statement, ProcessKilled not an Exception *)
  (killed_while_running false).1.1 = Raise ProcessKilled /\
  List.filter teardown_event (killed_while_running false).2 = [] /\
  env_sockets_open (killed_while_running false).1.2 = true /\
  (* SIGTERM during the statement, ProcessKilled an Exception *)
  (killed_while_running true).1.1 = Ok tt /\
  (killed_while_running true).2
  = [EvConnectControllers; EvSignal true; EvMasterConnect;
     EvMasterSend (VStr "READY"); EvMasterRecv demo_message;
     EvResultConnect (VInt 5555);
     EvValidate; EvLock; EvVerifyInput; EvExec "run()"; EvClearOutput; EvRelease;
     EvResultSend (failure_record (VInt 0) 1
                     (RuntimeError [VStr "ProcessKilled: "]));
     EvResultClose;
     EvMasterSend (VStr "READY"); EvMasterRecv VNone;
     EvSignal false; EvKillAllSubprocesses; EvCloseSocket "substep result";
     EvCloseSocket "substep backend"; EvDisconnectControllers].
Proof. repeat split; reflexivity. Qed.

(** ** The theorems at the sample job *)

Lemma lock_released_on_every_exit_witness :
  lock_held success_run.1.2 = false /\
  (exists before, success_run.2 = before ++ [EvRelease]) /\
  (forall h, success_run.1.1 <> Halt h).
Proof.
  apply (lock_released_on_every_exit (demo_world ∅ None [] true) (demo_job true)
           demo_state success_run.1.1 success_run.1.2 success_run.2).
  - vm_compute; reflexivity.
  - right. left. reflexivity.
Defined.

Lemma matching_signature_skips_witness :
  _execute_substep (demo_world demo_content None [] true) (demo_job true) demo_state
  = (Ok (<["shared" := VDict ∅]> (<["output" := VObj 2]>
         (<["sig_skipped" := VInt 1]> (<["ret_code" := VInt 0]>
         (<["index" := VInt 0]> ∅))))),
     set_sig None demo_prepared,
     [EvValidate; EvProgress "substep_ignored" (VInt 7)]).
Proof.
  apply (matching_signature_skips (demo_world demo_content None [] true)
           (demo_job true) demo_state demo_prepared [] demo_sig demo_content
           (VObj 2) (VDict ∅) (VInt 0) (VInt 7));
    vm_compute; reflexivity.
Defined.

Lemma signal_failure_is_reported_witness :
  exists res ev,
    _execute_substep failing_world (demo_job true) demo_state
    = (Ok res, released (demo_failure failing_world).1.2, ev) /\
    res = captured (demo_job true) (demo_failure failing_world).1.2
            (failure_record (VInt 0) 1 (StopInputGroup [])) /\
    res !! "index" = Some (VInt 0) /\
    res !! "ret_code" = Some (VInt 1) /\
    res !! "exception" = Some (VExn (StopInputGroup [])) /\
    ev = (demo_failure failing_world).2 ++ [EvClearOutput]
           ++ release_events (demo_failure failing_world).1.2 /\
    (In EvLock ev ->
     lock_held (released (demo_failure failing_world).1.2) = false /\
     exists before, ev = before ++ [EvRelease]) /\
    ~ In EvWrite ev.
Proof.
  apply (signal_failure_is_reported failing_world (demo_job true) demo_state
           demo_prepared [] (StopInputGroup []) (demo_failure failing_world).1.2
           (demo_failure failing_world).2 (VInt 0));
    vm_compute; reflexivity.
Defined.

Lemma external_failure_is_reported_witness :
  exists res,
    _execute_substep (demo_world ∅ (Some (CalledProcessError 2 (VStr "boom"))) [] true)
      (demo_job true) demo_state
    = (Ok res,
       released (demo_failure (demo_world ∅ (Some (CalledProcessError 2 (VStr "boom")))
                                 [] true)).1.2,
       (demo_failure (demo_world ∅ (Some (CalledProcessError 2 (VStr "boom")))
                        [] true)).2
         ++ [EvClearOutput]
         ++ release_events
              (demo_failure (demo_world ∅ (Some (CalledProcessError 2 (VStr "boom")))
                               [] true)).1.2) /\
    res = captured (demo_job true)
            (demo_failure (demo_world ∅ (Some (CalledProcessError 2 (VStr "boom")))
                             [] true)).1.2
            (failure_record (VInt 0) 2 (RuntimeError [VStr "boom"])) /\
    res !! "index" = Some (VInt 0) /\
    res !! "ret_code" = Some (VInt 2) /\
    res !! "exception" = Some (VExn (RuntimeError [VStr "boom"])).
Proof.
  apply (external_failure_is_reported
           (demo_world ∅ (Some (CalledProcessError 2 (VStr "boom"))) [] true)
           (demo_job true) demo_state demo_prepared [] 2 (VStr "boom")
           (demo_failure (demo_world ∅ (Some (CalledProcessError 2 (VStr "boom")))
                            [] true)).1.2
           (demo_failure (demo_world ∅ (Some (CalledProcessError 2 (VStr "boom")))
                            [] true)).2
           (VInt 0));
    vm_compute; reflexivity.
Defined.

Lemma argument_error_omits_captured_text_witness :
  exists (res : Dict) st2 ev,
    _execute_substep (demo_world ∅ (Some (ArgumentError [])) [] true)
      (demo_job true) demo_state = (Ok res, st2, ev) /\
    dom res = {[ "index"; "ret_code"; "exception" ]} /\
    res !! "stdout" = None /\ res !! "stderr" = None /\
    res !! "ret_code" = Some (VInt 1) /\
    res !! "exception" = Some (VExn (ArgumentError [])).
Proof.
  apply (argument_error_omits_captured_text
           (demo_world ∅ (Some (ArgumentError [])) [] true)
           (demo_job true) demo_state demo_prepared [] (ArgumentError [])
           (demo_failure (demo_world ∅ (Some (ArgumentError [])) [] true)).1.2
           (demo_failure (demo_world ∅ (Some (ArgumentError [])) [] true)).2
           (VInt 0) ArgumentClause);
    try (vm_compute; reflexivity).
  intros H; discriminate H.
Defined.




(** * Further properties of the code *)

(** Read a field of a state that a chain of updates built. *)
Ltac read_state :=
  cbn [env_config env_sos_dict env_verbosity env_sockets_open sys_stdout
       sys_stderr stringio console_out console_err lock_held sigterm_handler
       inbox sig outmsg errmsg
       set_env_config set_env_sos_dict set_env_verbosity set_env_sockets_open
       set_sys_stdout set_sys_stderr set_stringio set_console_out
       set_console_err set_lock_held set_sigterm_handler set_inbox set_sig
       set_outmsg set_errmsg].

(** [run], reading the state through the updates made so far. *)
Ltac srun :=
  cbv beta iota; read_state;
  lazymatch goal with
  | |- bind _ _ _ = _ =>
      first [ eapply bind_run; [ srun | srun ] | eapply bind_raise; srun ]
  | |- for_each _ (fun x => emit _) _ = _ => apply for_each_emit
  | |- getitem _ _ _ = _ => apply getitem_run; read_state; eassumption
  | |- sos_dict_get _ _ = _ => unfold sos_dict_get; srun
  | |- assert _ _ = _ => unfold assert; srun
  | |- try_finally _ _ _ = _ =>
      eapply try_finally_run; [ srun | intros ?; discriminate | srun ]
  | |- of_outcome ?o _ = _ =>
      first [ reflexivity
            | lazymatch goal with
              | H : o = _ |- _ => rewrite H; reflexivity
              end ]
  | |- (if ?b then _ else _) _ = _ =>
      lazymatch goal with
      | H : b = _ |- _ => rewrite H; srun
      end
  | |- (match ?x with _ => _ end) _ = _ =>
      lazymatch goal with
      | H : x = _ |- _ => rewrite H; srun
      end
  | |- _ => first [ eassumption | reflexivity ]
  end.

Ltac srun_lhs :=
  lazymatch goal with
  | |- ?lhs = _ =>
      let H := fresh "Hrun" in
      eassert (lhs = _) as H by srun;
      rewrite H; clear H
  end.

(** ** Output capture *)

Lemma fresh_buffers_read (bufs : list string) (o e : string) :
  let written :=
    alter (fun b => b +:+ e) (length (bufs ++ [""]))
      (alter (fun b => b +:+ o) (length bufs) ((bufs ++ [""]) ++ [""])) in
  default "" (written !! length bufs) = o /\
  default "" (written !! length (bufs ++ [""])) = e.
Proof.
  simpl. rewrite length_app. simpl. split.
  - rewrite list_lookup_alter_ne by lia.
    rewrite list_lookup_alter_eq.
    rewrite lookup_app_l by (rewrite length_app; simpl; lia).
    by rewrite lookup_app_r, Nat.sub_diag by lia.
  - rewrite list_lookup_alter_eq.
    rewrite list_lookup_alter_ne by lia.
    rewrite lookup_app_r by (rewrite length_app; simpl; lia).
    rewrite length_app. simpl. by rewrite Nat.sub_diag.
Qed.

(** X1.  With capture on and a statement that returns, the text the
    statement printed is in [outmsg] and [errmsg], nothing of it has
    reached the worker's own streams, and [sys.stdout] and [sys.stderr]
    are bound again to what they were bound to before. *)
Theorem capture_collects_and_restores w job st step_output :
  let eff := w_SoS_exec w (stmt job) (env_sos_dict st) in
  capture_output job = true ->
  w_verify_input w (env_sos_dict st) = Returns tt ->
  raised eff = None ->
  namespace eff !! "step_output" = Some step_output ->
  w_undetermined w step_output = false ->
  exists st',
    execute_stmt w job st = (Ok tt, st', [EvVerifyInput; EvExec (stmt job)]) /\
    outmsg st' = printed_out eff /\
    errmsg st' = printed_err eff /\
    sys_stdout st' = sys_stdout st /\
    sys_stderr st' = sys_stderr st /\
    console_out st' = console_out st /\
    console_err st' = console_err st /\
    env_sos_dict st' = namespace eff.
Proof.
  intros eff Hcap Hverify Hraised Hso Hund. subst eff.
  destruct (fresh_buffers_read (stringio st)
              (printed_out (w_SoS_exec w (stmt job) (env_sos_dict st)))
              (printed_err (w_SoS_exec w (stmt job) (env_sos_dict st))))
    as (Hout & Herr).
  eexists. split.
  - unfold execute_stmt, verify_input, stdoutIO, SoS_exec, new_StringIO,
      getvalue, write_stream.
    rewrite Hcap. cbv zeta. srun_lhs. reflexivity.
  - read_state. rewrite Hout, Herr. done.
Qed.

(** X2.  With capture on and a statement that raises, [execute_stmt] ends
    with [sys.stdout] and [sys.stderr] still bound to the two buffers
    it created, and with [outmsg] and [errmsg] as they were: what the
    statement printed before it failed is in no result. *)
Theorem capture_is_not_undone_on_failure w job st e :
  let eff := w_SoS_exec w (stmt job) (env_sos_dict st) in
  capture_output job = true ->
  w_verify_input w (env_sos_dict st) = Returns tt ->
  raised eff = Some e ->
  exists st',
    execute_stmt w job st = (Raise e, st', [EvVerifyInput; EvExec (stmt job)]) /\
    sys_stdout st' = StringIO (length (stringio st)) /\
    sys_stderr st' = StringIO (length (stringio st ++ [""])) /\
    outmsg st' = outmsg st /\
    errmsg st' = errmsg st /\
    console_out st' = console_out st /\
    console_err st' = console_err st.
Proof.
  intros eff Hcap Hverify Hraised. subst eff.
  eexists. split.
  - unfold execute_stmt, verify_input, stdoutIO, SoS_exec, new_StringIO,
      getvalue, write_stream.
    rewrite Hcap. cbv zeta. srun_lhs. reflexivity.
  - read_state. done.
Qed.


(** ** The entry point and its result socket *)

(** X4.  A job message without [step_id] or [_index] among its variables
    fails the assertions of [execute_substep]: [AssertionError] leaves
    the call before anything is connected or executed. *)
Theorem job_without_identity_is_refused w job st :
  env_sockets_open st = true ->
  proc_vars job !! "step_id" = None \/ proc_vars job !! "_index" = None ->
  execute_substep w job st = (Raise AssertionError, st, []).
Proof.
  intros Hopen Hmissing. unfold execute_substep.
  destruct (proc_vars job !! "step_id") as [sid | ] eqn:Hs.
  - destruct Hmissing as [[=] | Hi]. rewrite Hi.
    rewrite (bool_decide_eq_true_2 (is_Some (Some sid))) by eauto.
    rewrite (bool_decide_eq_false_2 (is_Some None)) by (intros [? [=]]).
    srun_lhs. reflexivity.
  - rewrite (bool_decide_eq_false_2 (is_Some None)) by (intros [? [=]]).
    srun_lhs. reflexivity.
Qed.

Lemma Executes_weaken {A} (R R' : State -> State -> Prop) (P P' : Event -> Prop)
      (C C' : Exn -> Prop) (m : M A) :
  Executes R P C m ->
  (forall s s', R s s' -> R' s s') -> (forall e, P e -> P' e) ->
  (forall e, C e -> C' e) ->
  Executes R' P' C' m.
Proof.
  intros Hm HR HP HC st r st' ev E.
  destruct (Hm _ _ _ _ E) as (H1 & H2 & H3).
  split; [ auto | ]. split; [ by eapply Forall_impl | ].
  destruct r; auto.
Qed.

(** Every event of [_execute_substep] is an event of the body, of a
    handler, or the release; the call never stops the process. *)
Lemma _execute_substep_events w job :
  Executes any_change (fun e => body_event e \/ handler_event e \/ e = EvRelease)
           any_exn (_execute_substep w job).
Proof.
  intros st r st' ev H. unfold _execute_substep in H.
  apply bind_inv in H
    as [([] & st0 & ev0 & ev1 & Hp & Hf & ->) | [(e & Hp & ->) | (h & Hp & ->)]];
    destruct (prologue_silent w job _ _ _ _ Hp) as (_ & Hev0 & Hx0);
    [ | | done ].
  2: { split; [ done | ]. split; [ | done ].
       eapply Forall_impl; [ exact Hev0 | done ]. }
  unfold try_finally in Hf.
  destruct (try_except (try_body w job) (handlers w job) st0)
    as [[r1 st1] ev2] eqn:Hg.
  destruct (guarded_spec _ _ _ _ _ _ Hg) as (_ & Hhalt).
  rewrite finally_release_run in Hf.
  assert (Forall (fun e => body_event e \/ handler_event e \/ e = EvRelease) ev2)
    as Hev2.
  { unfold try_except in Hg.
    destruct (try_body w job st0) as [[rb stb] evb] eqn:Hb.
    destruct (try_body_spec _ _ _ _ _ _ Hb) as (Hevb & _).
    assert (Forall (fun e => body_event e \/ handler_event e \/ e = EvRelease) evb)
      as Hevb' by (eapply Forall_impl; [ exact Hevb | tauto ]).
    destruct rb as [res | e | h]; try (injection Hg as <- <- <-; done).
    destruct (handlers w job e stb) as [[rh sth] evh] eqn:Hh.
    destruct (handlers_keep w job e _ _ _ _ Hh) as (_ & Hevh & _).
    injection Hg as <- <- <-. apply Forall_app_2; [ done | ].
    eapply Forall_impl; [ exact Hevh | tauto ]. }
  assert (Forall (fun e => body_event e \/ handler_event e \/ e = EvRelease)
            (release_events st1)) as Hrel.
  { unfold release_events. destruct (sig st1); repeat constructor; tauto. }
  destruct r1 as [res | e | h]; [ | | by destruct (Hhalt h) ].
  all: injection Hf as <- <- <-.
  all: split; [ done | ]; split; [ | done ].
  all: apply Forall_app_2; [ eapply Forall_impl; [ exact Hev0 | done ] | ].
  all: by apply Forall_app_2.
Qed.

Lemma try_finally_inv {A} (m : M A) (f : M unit) st r st' ev :
  try_finally m f st = (r, st', ev) ->
  exists r1 st1 ev1,
    m st = (r1, st1, ev1) /\
    ((exists h, r1 = Halt h /\ r = Halt h /\ st' = st1 /\ ev = ev1) \/
     ((forall h, r1 <> Halt h) /\
      exists r2 ev2,
        f st1 = (r2, st', ev2) /\ ev = ev1 ++ ev2 /\
        r = match r2 with
            | Ok _ => r1
            | Raise e => Raise e
            | Halt h => Halt h
            end)).
Proof.
  unfold try_finally. destruct (m st) as [[r1 st1] ev1].
  intros H. exists r1, st1, ev1. split; [ done | ].
  destruct r1 as [a | e | h].
  - right. split; [ done | ].
    destruct (f st1) as [[[[] | e2 | h2] st2] ev2]; injection H as <- <- <-;
      by eexists _, _.
  - right. split; [ done | ].
    destruct (f st1) as [[[[] | e2 | h2] st2] ev2]; injection H as <- <- <-;
      by eexists _, _.
  - left. injection H as <- <- <-. by exists h.
Qed.

(** X5.  Whatever a call of [execute_substep] does, it connects its result
    socket at most once and then closes it as the last thing it does;
    it returns exactly when it has sent one result, just before closing;
    when an exception leaves it, it has sent nothing. *)
Theorem result_socket_is_used_once w job st r st' ev :
  execute_substep w job st = (r, st', ev) ->
  match r with
  | Ok _ =>
      exists port inner res,
        ev = EvResultConnect port :: inner ++ [EvResultSend res; EvResultClose] /\
        Forall (fun e => body_event e \/ handler_event e \/ e = EvRelease) inner
  | Raise _ =>
      ev = [] \/
      exists port inner,
        ev = EvResultConnect port :: inner ++ [EvResultClose] /\
        Forall (fun e => body_event e \/ handler_event e \/ e = EvRelease) inner
  | Halt _ => False
  end.
Proof.
  unfold execute_substep, assert, contains. intros H.
  inv_run; try (by left); try congruence.
  match goal with
  | H : try_finally _ _ _ = _ |- _ =>
      apply try_finally_inv in H
        as (r1 & st1 & ev1 & Hin & [(h & -> & -> & -> & ->) | (Hnh & r2 & ev2 & Hf & -> & ->)])
  end.
  all: unfold emit in *.
  all: inv_run; try congruence.
  all: repeat match goal with
       | H : _execute_substep _ _ _ = _ |- _ =>
           destruct (_execute_substep_events _ _ _ _ _ _ H) as (_ & Hev & Hx);
           clear H
       end; try done.
  - eexists _, _, _. split; [ | exact Hev ].
    simpl. by rewrite ?app_nil_r, <- ?app_assoc.
  - right. eexists _, _. split; [ | exact Hev ].
    simpl. by rewrite ?app_nil_r, <- ?app_assoc.
  - apply bool_decide_eq_true_1 in H. rewrite Heqo0 in H. by destruct H.
Qed.

(** ** Jobs without a signature *)

#[local] Instance same_sig_refl : Reflexive same_sig.
Proof. by intros s. Qed.

#[local] Instance same_sig_trans : Transitive same_sig.
Proof. intros s1 s2 s3 [H1 H2] [H3 H4]. split; congruence. Qed.

Ltac executes_same_sig :=
  repeat first [ executes_step
               | apply Executes_of_outcome; [ apply _ .. | intros ? ? ] ];
  try apply _;
  try (intros; unfold same_sig; read_state; done);
  try (intros; simpl; tauto).

Lemma execute_stmt_same_sig w job :
  Executes same_sig (fun e => ~ signature_event e) any_exn (execute_stmt w job).
Proof.
  unfold execute_stmt, verify_input, stdoutIO, SoS_exec, new_StringIO,
    getvalue, write_stream, reevaluate_output, sos_dict_get.
  executes_same_sig.
Qed.

Lemma handlers_same_sig w job e :
  Executes same_sig (fun e => ~ signature_event e) any_exn (handlers w job e).
Proof.
  unfold handlers, on_signal, on_interrupt, on_called_process_error,
    on_argument_error, on_exception, add_captured, clear_output, sos_dict_get.
  executes_same_sig.
Qed.

Lemma complete_without_sig w job st r st' ev :
  sig st = None ->
  complete w job st = (r, st', ev) ->
  same_sig st st' /\ Forall (fun e => ~ signature_event e) ev /\
  (forall h, r <> Halt h) /\
  (forall res, r = Ok res ->
               res !! "sig_skipped" = None /\ res !! "output" = None /\
               res !! "shared" = None /\ res !! "ret_code" = Some (VInt 0)).
Proof.
  intros Hsig H. unfold complete, add_captured in H. inv_run; try congruence.
  all: split; [ by unfold same_sig | ].
  all: split; [ simpl; repeat constructor; simpl; tauto | ].
  all: split; [ done | ].
  all: intros res [= <-]; try done.
  all: unfold dict_update; repeat split; reflexivity.
Qed.

Lemma prologue_without_sig w job st st0 ev0 :
  dict_update (env_config st) (config job) !! "sig_mode" = Some (VStr "ignore") \/
  (exists out,
      dict_update (w_prepare_env w (env_sos_dict st)) (proc_vars job) !! "_output"
      = Some out /\ w_unspecified w out = true) ->
  prologue w job st = (Ok tt, st0, ev0) ->
  sig st0 = None.
Proof.
  intros Hwhy H. unfold prologue, make_sig in H. inv_run; try done.
  all: exfalso.
  all: repeat match goal with
       | H : context [env_config (set_env_config _ _)] |- _ =>
           progress (cbn [env_config env_sos_dict set_env_config set_env_sos_dict] in H)
       | H : context [env_sos_dict (set_env_sos_dict _ _)] |- _ =>
           progress (cbn [env_config env_sos_dict set_env_config set_env_sos_dict] in H)
       end.
  all: destruct Hwhy as [Hmode | (out & Hout & Hun)]; simplify_eq; try done.
  all: congruence.
Qed.

(** X6.  When signatures are switched off ([sig_mode] is 'ignore') or the
    output of the substep is unspecified, [_execute_substep] has nothing
    to do with a signature, however it ends: it validates, locks,
    writes and releases nothing, and the lock is as it was. *)
Theorem without_signature_nothing_is_locked w job st r st' ev :
  dict_update (env_config st) (config job) !! "sig_mode" = Some (VStr "ignore") \/
  (exists out,
      dict_update (w_prepare_env w (env_sos_dict st)) (proc_vars job) !! "_output"
      = Some out /\ w_unspecified w out = true) ->
  _execute_substep w job st = (r, st', ev) ->
  Forall (fun e => ~ signature_event e) ev /\
  lock_held st' = lock_held st /\
  (forall h, r <> Halt h).
Proof.
  intros Hwhy H. unfold _execute_substep in H.
  apply bind_inv in H
    as [([] & st0 & ev0 & ev1 & Hp & Hf & ->) | [(e & Hp & ->) | (h & Hp & ->)]];
    destruct (prologue_silent w job _ _ _ _ Hp) as (_ & Hev0 & Hx0);
    [ | | done ].
  2: { destruct ev as [ | x ev]; [ | by inversion Hev0 ].
       split; [ done | ]. split; [ | done ].
       unfold prologue, make_sig in Hp. inv_run; by read_state. }
  destruct ev0 as [ | x ev0]; [ simpl | by inversion Hev0 ].
  pose proof (prologue_without_sig _ _ _ _ _ Hwhy Hp) as Hsig.
  destruct (prologue_ok _ _ _ _ _ Hp) as (_ & _ & _ & _ & Hlock & _).
  apply try_finally_inv in Hf
    as (r1 & st1 & ev2 & Hg & [(h & -> & -> & -> & ->) | (Hnh & r2 & ev3 & Hfin & -> & ->)]).
  { by destruct (guarded_spec _ _ _ _ _ _ Hg) as (_ & Hhalt), (Hhalt h). }
  assert (same_sig st0 st1 /\ Forall (fun e => ~ signature_event e) ev2) as [Hsame Hev2].
  { unfold try_except in Hg.
    destruct (try_body w job st0) as [[rb stb] evb] eqn:Hb.
    assert (same_sig st0 stb /\ Forall (fun e => ~ signature_event e) evb) as [Hsb Hevb].
    { unfold try_body, run_stmt, check_sig in Hb.
      apply bind_inv in Hb
        as [(early & sa & eva & evb' & Hc & Hk & ->) | [(e & Hc & ->) | (h & Hc & ->)]].
      - unfold bind, gets in Hc. rewrite Hsig in Hc. unfold ret in Hc.
        injection Hc as <- <- <-.
        apply bind_inv in Hk
          as [([] & sb & evc & evd & He & Hcm & ->) | [(e & He & ->) | (h & He & ->)]];
          destruct (execute_stmt_same_sig w job _ _ _ _ He) as (S1 & E1 & _).
        + assert (sig sb = None) as Hsb by (destruct S1; congruence).
          destruct (complete_without_sig _ _ _ _ _ _ Hsb Hcm) as (S2 & E2 & _).
          split; [ by etrans | ]. simpl. by apply Forall_app_2.
        + by rewrite app_nil_l.
        + by rewrite app_nil_l.
      - unfold bind, gets in Hc. rewrite Hsig in Hc. discriminate Hc.
      - unfold bind, gets in Hc. rewrite Hsig in Hc. discriminate Hc. }
    destruct rb as [res | e | h]; try (injection Hg as <- <- <-; done).
    destruct (handlers w job e stb) as [[rh sth] evh] eqn:Hh.
    destruct (handlers_same_sig w job e _ _ _ _ Hh) as (Sh & Eh & _).
    injection Hg as <- <- <-. split; [ by etrans | by apply Forall_app_2 ]. }
  destruct Hsame as [Hs1 Hl1].
  rewrite finally_release_run in Hfin. unfold released, release_events in Hfin.
  rewrite Hs1, Hsig in Hfin. injection Hfin as <- <- <-.
  split; [ by rewrite app_nil_r | ]. split; [ congruence | ].
  intros h. destruct r1; [ done | done | by destruct (Hnh h0) ].
Qed.

(** ** Paths through the executor *)

(** X7.  When the lock of the signature cannot be had ([sig.lock()] raises
    [UnavailableLock]), the inputs are not verified and the statement
    is not executed: the call reports the signal with [ret_code] 1, and
    the [finally] suite still calls the quiet release. *)
Theorem unavailable_lock_stops_before_the_statement w job st st0 ev0 sg
        matched args index :
  prologue w job st = (Ok tt, st0, ev0) ->
  sig st0 = Some sg ->
  w_validate_step_sig w sg = Returns matched ->
  truthy_dict matched = false ->
  w_lock w sg = Raises (UnavailableLock args) ->
  env_sos_dict st0 !! "_index" = Some index ->
  _execute_substep w job st
  = (Ok (captured job st0 (failure_record index 1 (UnavailableLock args))),
     set_lock_held false st0,
     [EvValidate; EvLock; EvClearOutput; EvRelease]).
Proof.
  intros Hp Hsig Hval Hfalsy Hlock Hi.
  assert (try_body w job st0
          = (Raise (UnavailableLock args), st0, [EvValidate; EvLock])) as Hb.
  { unfold try_body, check_sig, validate_step_sig, lock. run_lhs. reflexivity. }
  erewrite execute_with_failure;
    [ | exact Hp | exact Hb | unfold handlers; by apply on_signal_run | done ].
  unfold released, release_events. by rewrite Hsig.
Qed.

(** X8.  When the verification of the inputs fails, the statement is not
    executed and the failure is the one of the verification. *)
Theorem unverified_input_stops_before_the_statement w job st e :
  w_verify_input w (env_sos_dict st) = Raises e ->
  run_stmt w job st = (Raise e, st, [EvVerifyInput]).
Proof.
  intros Hv. unfold run_stmt, execute_stmt, verify_input. run_lhs. reflexivity.
Qed.

(** X9.  An exception that none of the except clauses matches (a
    [BaseException] that is neither interrupt nor exit, or
    [ProcessKilled] when that is no [Exception]) leaves
    [_execute_substep] as it is: the output is not cleared, nothing is
    reported, only the [finally] suite runs. *)
Theorem unmatched_exception_propagates w job st st0 ev0 e st1 ev1 :
  prologue w job st = (Ok tt, st0, ev0) ->
  try_body w job st0 = (Raise e, st1, ev1) ->
  clause_of w e = None ->
  _execute_substep w job st = (Raise e, released st1, ev1 ++ release_events st1).
Proof.
  intros Hp Hb Hc.
  assert (handlers w job e st1 = (Raise e, st1, [])) as Hh.
  { unfold clause_of in Hc.
    destruct e; cbn [is_signal is_interrupt is_Exception] in Hc;
      try discriminate Hc; unfold handlers.
    - reflexivity.
    - destruct (w_ProcessKilled_is_Exception w); [ discriminate Hc | reflexivity ]. }
  by rewrite (execute_with_failure _ _ _ _ _ _ _ _ _ _ _ Hp Hb Hh).
Qed.

(** ** The result of a successful run *)

(** X10.  Without a signature the result of a successful run is
    [{index, ret_code: 0}] (and the captured text): it has no
    [sig_skipped], [output] or [shared] entry, and the only event after
    the statement is the 'substep_completed' progress message. *)
Theorem success_without_signature w job st index step_id :
  sig st = None ->
  env_sos_dict st !! "_index" = Some index ->
  env_sos_dict st !! "step_id" = Some step_id ->
  let res := captured job st (<["ret_code" := VInt 0]> (<["index" := index]> ∅)) in
  complete w job st = (Ok res, st, [EvProgress "substep_completed" step_id]) /\
  res !! "ret_code" = Some (VInt 0) /\
  res !! "index" = Some index /\
  res !! "sig_skipped" = None /\
  res !! "output" = None /\
  res !! "shared" = None /\
  res !! "exception" = None.
Proof.
  intros Hsig Hi Hs res. split.
  - subst res. unfold complete, add_captured, captured.
    destruct (capture_output job); run_lhs; reflexivity.
  - subst res. rewrite !captured_lookup by done. repeat split; reflexivity.
Qed.

(** X11.  With a signature, the realized output is recorded in it before it
    is written; when the write succeeds the result echoes the [output]
    and the [end_context] of the written record, the latter as
    [shared]. *)
Theorem written_signature_is_echoed w job st sg index step_id out output shared :
  sig st = Some sg ->
  env_sos_dict st !! "_index" = Some index ->
  env_sos_dict st !! "_output" = Some out ->
  env_sos_dict st !! "step_id" = Some step_id ->
  w_write w (set_output out sg) = true ->
  w_content w (set_output out sg) !! "output" = Some output ->
  w_content w (set_output out sg) !! "end_context" = Some shared ->
  complete w job st
  = (Ok (captured job (set_sig (Some (set_output out sg)) st)
           (dict_update (<["ret_code" := VInt 0]> (<["index" := index]> ∅))
              (<["shared" := shared]> (<["output" := output]> ∅)))),
     set_sig (Some (set_output out sg)) st,
     [EvSetOutput out; EvWrite; EvProgress "substep_completed" step_id]).
Proof.
  intros Hsig Hi Ho Hs Hw Hout Hctx.
  unfold complete, add_captured, captured.
  destruct (capture_output job); srun_lhs; reflexivity.
Qed.

(** X12.  When the write of the signature does not succeed, the statement
    has still run and the call still succeeds, but the result has
    neither [output] nor [shared]. *)
Theorem unwritten_signature_gives_bare_result w job st sg index step_id out :
  sig st = Some sg ->
  env_sos_dict st !! "_index" = Some index ->
  env_sos_dict st !! "_output" = Some out ->
  env_sos_dict st !! "step_id" = Some step_id ->
  w_write w (set_output out sg) = false ->
  let res := captured job (set_sig (Some (set_output out sg)) st)
               (<["ret_code" := VInt 0]> (<["index" := index]> ∅)) in
  complete w job st
  = (Ok res, set_sig (Some (set_output out sg)) st,
     [EvSetOutput out; EvWrite; EvProgress "substep_completed" step_id]) /\
  res !! "ret_code" = Some (VInt 0) /\
  res !! "output" = None /\
  res !! "shared" = None.
Proof.
  intros Hsig Hi Ho Hs Hw res. split.
  - subst res. unfold complete, add_captured, captured.
    destruct (capture_output job); srun_lhs; reflexivity.
  - subst res. rewrite !captured_lookup by done. repeat split; reflexivity.
Qed.

(** ** The step worker's loop and teardown *)

Section WorkerFacts.
Context (w : World) {G : Type} (eng : Engine G).





(** X14.  A [None] from the coordinator ends the loop: the default action
    for SIGTERM is restored and the teardown follows. *)
Theorem step_worker_quits_on_none fuel config st rest :
  inbox st = Message VNone :: rest ->
  let run := SoS_Worker_run w eng (S fuel) config st in
  run.1.1 = Ok tt /\
  run.2 = [EvConnectControllers; EvSignal true; EvMasterConnect;
           EvMasterRecv VNone; EvSignal false;
           EvKillAllSubprocesses; EvSignal false; EvCloseSocket "master";
           EvDisconnectControllers] /\
  inbox run.1.2 = rest /\
  env_sockets_open run.1.2 = false /\
  sigterm_handler run.1.2 = false /\
  env_config run.1.2 = dict_update (env_config st) config.
Proof.
  intros Hin run. subst run.
  unfold SoS_Worker_run, connect_controllers, signal_SIGTERM, worker_loop,
    worker_iteration, try_except, bind, gets, modify, emit.
  cbn [fst snd]. rewrite recv_pyobj_run. cbn. rewrite Hin. cbn.
  repeat split; reflexivity.
Qed.

(** X15.  SIGTERM arriving while the step worker waits for a request: the
    handler installed by [run] raises [ProcessKilled], the loop is left
    and the teardown is executed.  Nothing is received. *)
Theorem step_worker_tears_down_on_sigterm fuel config st rest :
  inbox st = Sigterm :: rest ->
  let run := SoS_Worker_run w eng (S fuel) config st in
  run.1.1 = Ok tt /\
  run.2 = [EvConnectControllers; EvSignal true; EvMasterConnect;
           EvKillAllSubprocesses; EvSignal false; EvCloseSocket "master";
           EvDisconnectControllers] /\
  inbox run.1.2 = rest /\
  env_sockets_open run.1.2 = false /\
  sigterm_handler run.1.2 = false.
Proof.
  intros Hin run. subst run.
  unfold SoS_Worker_run, connect_controllers, signal_SIGTERM, worker_loop,
    worker_iteration, try_except, bind, gets, modify, emit.
  cbn [fst snd]. rewrite recv_pyobj_run. cbn. rewrite Hin. cbn.
  repeat split; reflexivity.
Qed.

End WorkerFacts.

(** ** The substep worker's loop *)

Section SubstepWorkerFacts.
Context (w : World).

Ltac ok_step H H0 :=
  apply bind_inv in H;
  destruct H as [(? & ? & ? & ? & H0 & H & ->)
                | [(? & _ & [=]) | (? & _ & [=])]].

(** [srun] for the workers: the next delivery is read from the
    hypotheses. *)
Ltac wrun :=
  cbv beta iota; read_state;
  lazymatch goal with
  | |- bind _ _ _ = _ =>
      first [ eapply bind_run; [ wrun | wrun ] | eapply bind_raise; wrun ]
  | |- getitem _ _ _ = _ => apply getitem_run; read_state; eassumption
  | |- recv_pyobj _ = _ =>
      rewrite recv_pyobj_run; read_state;
      lazymatch goal with
      | H : inbox _ = _ |- _ => rewrite H; reflexivity
      end
  | |- (if negb (truthy ?m) then _ else _) _ = _ =>
      lazymatch goal with
      | H : truthy m = _ |- _ => rewrite H; cbn [negb]; wrun
      end
  | |- _ => reflexivity
  end.

Lemma substep_loop_returns fuel st st' ev :
  substep_loop w fuel st = (Ok tt, st', ev) ->
  exists before m,
    ev = before ++ [EvMasterSend (VStr "READY"); EvMasterRecv m] /\
    truthy m = false.
Proof.
  revert st ev. induction fuel as [ | fuel IH]; intros st ev H;
    cbn [substep_loop] in H.
  - discriminate H.
  - apply bind_inv in H.
    destruct H as [([] & st1 & ev1 & ev2 & Hs & H & ->)
                  | [(e & _ & [=]) | (h & _ & [=])]].
    unfold emit in Hs. injection Hs as <- <-.
    apply bind_inv in H.
    destruct H as [(m & st2 & ev3 & ev4 & Hr & H & ->)
                  | [(e & _ & [=]) | (h & _ & [=])]].
    rewrite recv_pyobj_run in Hr.
    destruct (inbox st) as [ | [v | ] rest]; [ discriminate Hr | | ].
    + injection Hr as <- <- <-.
      destruct (truthy v) eqn:Hm; cbn [negb] in H; cbv beta iota in H.
      * apply bind_inv in H.
        destruct H as [(job & st3 & ev5 & ev6 & _ & H & ->)
                      | [(e & _ & [=]) | (h & _ & [=])]].
        apply bind_inv in H.
        destruct H as [([] & st4 & ev7 & ev8 & _ & H & ->)
                      | [(e & _ & [=]) | (h & _ & [=])]].
        apply IH in H as (before & m' & -> & Hm').
        exists ([EvMasterSend (VStr "READY")] ++ [EvMasterRecv v] ++ ev5
                  ++ ev7 ++ before), m'.
        split; [ | done ]. by rewrite <- !app_assoc.
      * unfold ret in H. injection H as <- <-.
        exists [], v. by split.
    + by destruct (sigterm_handler st).
Qed.

Lemma substep_teardown_run st :
  substep_teardown st
  = (Ok tt, set_env_sockets_open false (set_sigterm_handler false st),
     [EvSignal false; EvKillAllSubprocesses; EvCloseSocket "substep result";
      EvCloseSocket "substep backend"; EvDisconnectControllers]).
Proof. reflexivity. Qed.

(** X16.  The substep worker returns from [run] only after a message without
    truth value answered its last READY; it has then reset the SIGTERM
    action, killed its subprocesses, closed the result and backend
    sockets and disconnected the controllers, in this order. *)
Theorem substep_worker_returns_only_when_told fuel config st st' ev :
  SoS_SubStep_Worker_run w fuel config st = (Ok tt, st', ev) ->
  exists before m,
    ev = before ++ [EvMasterSend (VStr "READY"); EvMasterRecv m;
                    EvSignal false; EvKillAllSubprocesses;
                    EvCloseSocket "substep result";
                    EvCloseSocket "substep backend";
                    EvDisconnectControllers] /\
    truthy m = false /\
    env_sockets_open st' = false /\
    sigterm_handler st' = false.
Proof.
  unfold SoS_SubStep_Worker_run, connect_controllers, signal_SIGTERM. intros H.
  repeat (ok_step H H0;
          first [ unfold gets in H0 | unfold modify in H0 | unfold emit in H0 ];
          injection H0 as <- <- <-).
  ok_step H H0.
  unfold getitem in H0. destruct (config !! "sockets"); [ | discriminate H0 ].
  injection H0 as <- <- <-.
  ok_step H H0.
  match type of H0 with
  | (match ?x with _ => _ end) _ = _ => destruct x; try discriminate H0
  end.
  unfold getitem in H0. destruct (_ !! "substep_backend"); [ | discriminate H0 ].
  injection H0 as <- <- <-.
  ok_step H H0. injection H0 as <- <- <-.
  ok_step H H0.
  match type of H0 with _ = (Ok ?u, _, _) => destruct u end.
  apply substep_loop_returns in H0 as (before & m & -> & Hm).
  rewrite substep_teardown_run in H. injection H as <- <-.
  exists ([EvConnectControllers; EvSignal true; EvMasterConnect] ++ before), m.
  split; [ | split; [ exact Hm | split; reflexivity ] ].
  cbn [app]. by rewrite <- app_assoc.
Qed.

(** X17.  Any message without truth value ([None], 0, an empty string, list
    or dict) ends the substep worker: nothing is executed and the
    teardown follows. *)
Theorem substep_worker_stops_on_falsy_message fuel config st m rest s port :
  inbox st = Message m :: rest ->
  truthy m = false ->
  config !! "sockets" = Some (VDict s) ->
  s !! "substep_backend" = Some port ->
  let run := SoS_SubStep_Worker_run w (S fuel) config st in
  run.1.1 = Ok tt /\
  run.2 = [EvConnectControllers; EvSignal true; EvMasterConnect;
           EvMasterSend (VStr "READY"); EvMasterRecv m;
           EvSignal false; EvKillAllSubprocesses;
           EvCloseSocket "substep result"; EvCloseSocket "substep backend";
           EvDisconnectControllers] /\
  inbox run.1.2 = rest /\
  env_sockets_open run.1.2 = false /\
  sigterm_handler run.1.2 = false.
Proof.
  intros Hin Hm Hs Hp run. subst run.
  eassert (SoS_SubStep_Worker_run w (S fuel) config st = _) as Hrun.
  { unfold SoS_SubStep_Worker_run, connect_controllers, signal_SIGTERM.
    cbn [substep_loop]. wrun. }
  rewrite Hrun. repeat split; reflexivity.
Qed.

End SubstepWorkerFacts.

(** ** Statements executed by the step worker *)


Section StepWorkerStatements.
Context (w : World) {G : Type} (eng : Engine G).


(** X19.  A nested workflow that fails with an [Exception] does not fail the
    worker: the exception object is sent to the coordinator on the
    master socket, after whatever the workflow sent itself, and
    [run_workflow] returns.  What is no [Exception] (an interrupt, an
    exit) is raised to [run]. *)
Theorem nested_workflow_failure_is_forwarded
        workflow_id wf targets args shared config st sent e :
  let st0 := set_env_config (dict_update (env_config st) config) st in
  let pre := reset_dict w eng args st0 in
  let run := run_workflow w eng workflow_id wf targets args shared config st in
  pre.1.1 = Ok tt ->
  (config !! "verbosity" = None \/
   exists n, config !! "verbosity" = Some (VInt n)) ->
  e_run_as_nested eng workflow_id wf targets (env_sos_dict pre.1.2)
  = (sent, Raises e) ->
  run.1.1 = (if is_Exception w e then Ok tt else Raise e) /\
  run.2 = pre.2 ++ map EvMasterSend sent
             ++ (if is_Exception w e then [EvMasterSend (VExn e)] else []).
Proof.
  intros st0 pre run Hpre Hverb Hnested. subst run.
  destruct pre as [[r1 st1] ev1] eqn:Epre. cbn [fst snd] in *. subst r1.
  assert (forall n,
             try_except
               (let* d := gets env_sos_dict in
                let '(sent, o) := e_run_as_nested eng workflow_id wf targets d in
                for_each sent (fun m => emit (EvMasterSend m)) >> of_outcome o)
               (fun e => if is_Exception w e then emit (EvMasterSend (VExn e))
                         else raise e)
               (set_env_verbosity n st1)
             = (if is_Exception w e then Ok tt else Raise e,
                set_env_verbosity n st1,
                map EvMasterSend sent
                  ++ (if is_Exception w e then [EvMasterSend (VExn e)] else [])))
    as Htry.
  { intros n. unfold try_except, bind at 1, gets at 1.
    cbn [env_sos_dict set_env_verbosity]. rewrite Hnested.
    unfold bind. rewrite for_each_emit. cbn [of_outcome]. unfold raise.
    destruct (is_Exception w e); unfold emit; by rewrite ?app_nil_r. }
  destruct Hverb as [Hv | [n Hv]].
  all: eassert (run_workflow w eng workflow_id wf targets args shared config st
                = _) as Hrun;
    [ unfold run_workflow;
      eapply bind_run; [ reflexivity | ];
      eapply bind_run; [ reflexivity | ];
      eapply bind_run; [ exact Epre | ];
      rewrite Hv;
      eapply bind_run; [ reflexivity | apply Htry ]
    | rewrite Hrun; split; reflexivity ].
Qed.

End StepWorkerStatements.

(** ** The message of a reported exception *)

Lemma append_empty (s t : string) : s +:+ t = "" -> s = "" /\ t = "".
Proof. destruct s; [ done | discriminate ]. Qed.

Section Messages.
Context (w : World).

(** One round of the loop of lines 188-197. *)
Lemma traceback_loop_empty (frames : list FrameSummary) (msg : string) :
  fold_left
    (fun msg st =>
       if String.prefix "script_" (filename st) then
         msg +:+ filename st +:+ " in " +:+ name st +:+ nl
             +:+ code_window (lineno st) (w_script_lines w (filename st)) +:+ nl
       else msg)
    frames msg = ""
  <-> msg = "" /\
      Forall (fun st => String.prefix "script_" (filename st) = false) frames.
Proof.
  revert msg. induction frames as [ | st frames IH]; intros msg; cbn [fold_left].
  - split; [ by intros -> | by intros [-> _] ].
  - rewrite IH, Forall_cons. destruct (String.prefix "script_" (filename st)).
    + split.
      * intros [H _]. apply append_empty in H as [_ H].
        apply append_empty in H as [_ H]. discriminate H.
      * intros [_ [[=] _]].
    + tauto.
Qed.

Lemma traceback_msg_empty e :
  traceback_msg w e = ""
  <-> Forall (fun st => String.prefix "script_" (filename st) = false)
             (w_extract_tb w e).
Proof.
  unfold traceback_msg. rewrite traceback_loop_empty. split.
  - intros [_ H]. apply List.Forall_rev in H. by rewrite rev_involutive in H.
  - intros H. split; [ done | by apply List.Forall_rev ].
Qed.

(** X20.  The exception that replaces a failure of the statement: when no
    frame of the traceback is in a file named [script_...], it is
    [RuntimeError("Class: detail")], the detail being the first
    argument of the exception or nothing; as soon as one frame is, it
    is the long form with the ruled header and the code windows.  In
    both cases the record holds a [RuntimeError] with one string, not
    the exception raised. *)
Theorem traceback_is_shown_for_script_frames e :
  let detail := match exn_args e with a :: _ => w_str w a | [] => "" end in
  describe w e
  = RuntimeError [VStr (
      if forallb (fun st => negb (String.prefix "script_" (filename st)))
                 (w_extract_tb w e)
      then class_name e +:+ ": " +:+ detail
      else nl +:+ dashes +:+ nl
           +:+ ljust 42 (class_name e)
           +:+ "Traceback (most recent call last)" +:+ nl
           +:+ traceback_msg w e +:+ nl
           +:+ class_name e +:+ ": " +:+ detail)].
Proof.
  intros detail. subst detail. unfold describe.
  destruct (forallb _ _) eqn:Hall.
  - assert (traceback_msg w e = "") as ->; [ | done ].
    apply traceback_msg_empty, List.Forall_forall. intros st Hst.
    rewrite forallb_forall in Hall.
    apply Hall, negb_true_iff in Hst. exact Hst.
  - destruct (String.eqb_spec (traceback_msg w e) "") as [Hmsg | Hmsg]; [ | done ].
    apply traceback_msg_empty in Hmsg.
    assert (forallb (fun st => negb (String.prefix "script_" (filename st)))
                    (w_extract_tb w e) = true) as Hall'; [ | congruence ].
    apply forallb_forall. intros st Hst. apply negb_true_iff.
    rewrite List.Forall_forall in Hmsg. by apply Hmsg.
Qed.

(** X21.  The window of code shown for a frame: the line of the frame,
    marked with an arrow, the two lines before it and the three lines
    after it, as far as the script has them. *)
Theorem code_window_marks_the_line (line_number : nat) (lines : list string) x :
  lines !! (line_number - 1) = Some x ->
  1 <= line_number ->
  let plain := fun y : string => "     " +:+ " " +:+ y in
  code_window line_number lines
  = String.concat nl
      ((plain <$> slice (line_number - 3) (line_number - 1) lines)
         ++ ("---->" +:+ " " +:+ x)
         :: (plain <$> slice line_number (line_number + 3) lines)).
Proof.
  intros Hx Hn plain. unfold code_window. f_equal.
  assert (length (take (line_number - 1) lines) = line_number - 1) as Hlen.
  { apply lookup_lt_Some in Hx. rewrite length_take. lia. }
  rewrite <- (take_drop_middle lines (line_number - 1) x Hx) at 1.
  replace (S (line_number - 1)) with line_number by lia.
  rewrite imap_app. cbn [imap]. rewrite Hlen.
  replace (line_number - 1 + 0 + 1 =? line_number) with true
    by (symmetry; apply Nat.eqb_eq; lia).
  rewrite (imap_ext _ (const plain) (take (line_number - 1) lines)).
  2: { intros i y Hy. apply lookup_lt_Some in Hy. rewrite Hlen in Hy.
       replace (i + 1 =? line_number) with false
         by (symmetry; apply Nat.eqb_neq; lia).
       done. }
  rewrite (imap_ext _ (const plain) (drop line_number lines)).
  2: { intros i y _. unfold compose.
       replace (line_number - 1 + S i + 1 =? line_number) with false
         by (symmetry; apply Nat.eqb_neq; lia).
       done. }
  rewrite !imap_const. unfold slice.
  rewrite drop_app_le by (rewrite length_fmap, Hlen; lia).
  replace (line_number + 3 - (line_number - 3))
    with (length (drop (line_number - 3) (plain <$> take (line_number - 1) lines))
          + 4)
    by (rewrite length_drop, length_fmap, Hlen; lia).
  rewrite take_app_add. cbn [take].
  rewrite <- fmap_drop, <- fmap_take.
  f_equal.
  - f_equal. rewrite take_drop_commute. f_equal. f_equal. lia.
  - f_equal. f_equal. f_equal. lia.
Qed.

End Messages.

(** X22.  A failure of the statement that only the last clause
    ([except Exception]) matches is reported in band: the output is
    cleared, the record has [ret_code] 1 and the [RuntimeError] built
    from the class name, the traceback and the first argument, the
    captured text is added, and the lock, if held, is released. *)
Theorem other_failure_is_reported w job st st0 ev0 e st1 ev1 index :
  prologue w job st = (Ok tt, st0, ev0) ->
  try_body w job st0 = (Raise e, st1, ev1) ->
  clause_of w e = Some ExceptionClause ->
  env_sos_dict st1 !! "_index" = Some index ->
  let res := captured job st1 (failure_record index 1 (describe w e)) in
  _execute_substep w job st
  = (Ok res, released st1, ev1 ++ [EvClearOutput] ++ release_events st1) /\
  res !! "ret_code" = Some (VInt 1) /\
  res !! "exception" = Some (VExn (describe w e)) /\
  (exists msg, describe w e = RuntimeError [VStr msg]).
Proof.
  intros Hp Hb Hc Hi res. subst res.
  assert (handlers w job e st1 = on_exception w job e st1) as Hh.
  { unfold clause_of in Hc. unfold handlers.
    destruct e; cbn [is_signal is_interrupt is_Exception] in Hc;
      try discriminate Hc; try reflexivity.
    destruct (w_ProcessKilled_is_Exception w); [ reflexivity | discriminate Hc ]. }
  rewrite (on_exception_run w job e st1 index Hi) in Hh.
  split; [ | split; [ | split ] ].
  - by rewrite (execute_with_failure _ _ _ _ _ _ _ _ _ _ _ Hp Hb Hh).
  - by rewrite captured_lookup.
  - by rewrite captured_lookup.
  - unfold describe. destruct (negb _); by eexists.
Qed.

(** ** The further properties at the sample job *)

Lemma capture_collects_and_restores_witness :
  let eff := w_SoS_exec (demo_world ∅ None [] true) (stmt (demo_job true))
               (env_sos_dict demo_prepared) in
  exists st',
    execute_stmt (demo_world ∅ None [] true) (demo_job true) demo_prepared
    = (Ok tt, st', [EvVerifyInput; EvExec (stmt (demo_job true))]) /\
    outmsg st' = printed_out eff /\
    errmsg st' = printed_err eff /\
    sys_stdout st' = sys_stdout demo_prepared /\
    sys_stderr st' = sys_stderr demo_prepared /\
    console_out st' = console_out demo_prepared /\
    console_err st' = console_err demo_prepared /\
    env_sos_dict st' = namespace eff.
Proof.
  apply (capture_collects_and_restores (demo_world ∅ None [] true) (demo_job true)
           demo_prepared (VObj 5)).
  - reflexivity.
  - reflexivity.
  - reflexivity.
  - vm_compute; reflexivity.
  - reflexivity.
Defined.

Lemma capture_is_not_undone_on_failure_witness :
  let eff := w_SoS_exec failing_world (stmt (demo_job true))
               (env_sos_dict demo_prepared) in
  exists st',
    execute_stmt failing_world (demo_job true) demo_prepared
    = (Raise (StopInputGroup []), st',
       [EvVerifyInput; EvExec (stmt (demo_job true))]) /\
    sys_stdout st' = StringIO (length (stringio demo_prepared)) /\
    sys_stderr st' = StringIO (length (stringio demo_prepared ++ [""])) /\
    outmsg st' = outmsg demo_prepared /\
    errmsg st' = errmsg demo_prepared /\
    console_out st' = console_out demo_prepared /\
    console_err st' = console_err demo_prepared.
Proof.
  apply (capture_is_not_undone_on_failure failing_world (demo_job true)
           demo_prepared (StopInputGroup [])); reflexivity.
Defined.


Lemma job_without_identity_is_refused_witness :
  execute_substep (demo_world ∅ None [] true) anonymous_job demo_state
  = (Raise AssertionError, demo_state, []).
Proof.
  apply (job_without_identity_is_refused (demo_world ∅ None [] true)
           anonymous_job demo_state).
  - reflexivity.
  - left. reflexivity.
Defined.

Lemma result_socket_is_used_once_witness :
  match demo_call.1.1 with
  | Ok _ =>
      exists port inner res,
        demo_call.2
        = EvResultConnect port :: inner ++ [EvResultSend res; EvResultClose] /\
        Forall (fun e => body_event e \/ handler_event e \/ e = EvRelease) inner
  | Raise _ =>
      demo_call.2 = [] \/
      exists port inner,
        demo_call.2 = EvResultConnect port :: inner ++ [EvResultClose] /\
        Forall (fun e => body_event e \/ handler_event e \/ e = EvRelease) inner
  | Halt _ => False
  end.
Proof.
  apply (result_socket_is_used_once (demo_world ∅ None [] true) (demo_job true)
           demo_state demo_call.1.1 demo_call.1.2 demo_call.2).
  vm_compute; reflexivity.
Defined.

Lemma without_signature_nothing_is_locked_witness :
  Forall (fun e => ~ signature_event e) unsigned_run.2 /\
  lock_held unsigned_run.1.2 = lock_held demo_state /\
  (forall h, unsigned_run.1.1 <> Halt h).
Proof.
  apply (without_signature_nothing_is_locked (demo_world ∅ None [] true)
           unsigned_job demo_state unsigned_run.1.1 unsigned_run.1.2
           unsigned_run.2).
  - left. vm_compute; reflexivity.
  - vm_compute; reflexivity.
Defined.

Lemma unavailable_lock_stops_before_the_statement_witness :
  _execute_substep
    (strict_world (Returns tt) (Raises (UnavailableLock [VStr "busy"])) true)
    (demo_job true) demo_state
  = (Ok (captured (demo_job true) demo_prepared
           (failure_record (VInt 0) 1 (UnavailableLock [VStr "busy"]))),
     set_lock_held false demo_prepared,
     [EvValidate; EvLock; EvClearOutput; EvRelease]).
Proof.
  apply (unavailable_lock_stops_before_the_statement
           (strict_world (Returns tt) (Raises (UnavailableLock [VStr "busy"])) true)
           (demo_job true) demo_state demo_prepared [] demo_sig ∅
           [VStr "busy"] (VInt 0)).
  - vm_compute; reflexivity.
  - vm_compute; reflexivity.
  - reflexivity.
  - reflexivity.
  - reflexivity.
  - vm_compute; reflexivity.
Defined.

Lemma unverified_input_stops_before_the_statement_witness :
  run_stmt (strict_world (Raises (RuntimeError [VStr "no input"])) (Returns tt) true)
    (demo_job true) demo_prepared
  = (Raise (RuntimeError [VStr "no input"]), demo_prepared, [EvVerifyInput]).
Proof.
  apply (unverified_input_stops_before_the_statement
           (strict_world (Raises (RuntimeError [VStr "no input"])) (Returns tt) true)
           (demo_job true) demo_prepared (RuntimeError [VStr "no input"])).
  reflexivity.
Defined.

Lemma unmatched_exception_propagates_witness :
  _execute_substep
    (demo_world ∅ (Some (OtherBaseException "GeneratorExit" [])) [] true)
    (demo_job true) demo_state
  = (Raise (OtherBaseException "GeneratorExit" []),
     released (demo_failure
                 (demo_world ∅ (Some (OtherBaseException "GeneratorExit" []))
                    [] true)).1.2,
     (demo_failure
        (demo_world ∅ (Some (OtherBaseException "GeneratorExit" [])) [] true)).2
       ++ release_events
            (demo_failure
               (demo_world ∅ (Some (OtherBaseException "GeneratorExit" []))
                  [] true)).1.2).
Proof.
  apply (unmatched_exception_propagates
           (demo_world ∅ (Some (OtherBaseException "GeneratorExit" [])) [] true)
           (demo_job true) demo_state demo_prepared []
           (OtherBaseException "GeneratorExit" [])).
  - vm_compute; reflexivity.
  - vm_compute; reflexivity.
  - reflexivity.
Defined.

Lemma success_without_signature_witness :
  let res := captured (demo_job true) (set_sig None demo_prepared)
               (<["ret_code" := VInt 0]> (<["index" := VInt 0]> ∅)) in
  complete (demo_world ∅ None [] true) (demo_job true) (set_sig None demo_prepared)
  = (Ok res, set_sig None demo_prepared,
     [EvProgress "substep_completed" (VInt 7)]) /\
  res !! "ret_code" = Some (VInt 0) /\
  res !! "index" = Some (VInt 0) /\
  res !! "sig_skipped" = None /\
  res !! "output" = None /\
  res !! "shared" = None /\
  res !! "exception" = None.
Proof.
  apply (success_without_signature (demo_world ∅ None [] true) (demo_job true)
           (set_sig None demo_prepared) (VInt 0) (VInt 7)).
  - reflexivity.
  - vm_compute; reflexivity.
  - vm_compute; reflexivity.
Defined.

Lemma written_signature_is_echoed_witness :
  complete (demo_world ∅ None [] true) (demo_job true) demo_prepared
  = (Ok (captured (demo_job true)
           (set_sig (Some (set_output (VObj 2) demo_sig)) demo_prepared)
           (dict_update (<["ret_code" := VInt 0]> (<["index" := VInt 0]> ∅))
              (<["shared" := VDict ∅]> (<["output" := VObj 2]> ∅)))),
     set_sig (Some (set_output (VObj 2) demo_sig)) demo_prepared,
     [EvSetOutput (VObj 2); EvWrite; EvProgress "substep_completed" (VInt 7)]).
Proof.
  apply (written_signature_is_echoed (demo_world ∅ None [] true) (demo_job true)
           demo_prepared demo_sig (VInt 0) (VInt 7) (VObj 2) (VObj 2) (VDict ∅)).
  - vm_compute; reflexivity.
  - vm_compute; reflexivity.
  - vm_compute; reflexivity.
  - vm_compute; reflexivity.
  - reflexivity.
  - reflexivity.
  - reflexivity.
Defined.

Lemma unwritten_signature_gives_bare_result_witness :
  let res := captured (demo_job true)
               (set_sig (Some (set_output (VObj 2) demo_sig)) demo_prepared)
               (<["ret_code" := VInt 0]> (<["index" := VInt 0]> ∅)) in
  complete (strict_world (Returns tt) (Returns tt) false) (demo_job true)
    demo_prepared
  = (Ok res, set_sig (Some (set_output (VObj 2) demo_sig)) demo_prepared,
     [EvSetOutput (VObj 2); EvWrite; EvProgress "substep_completed" (VInt 7)]) /\
  res !! "ret_code" = Some (VInt 0) /\
  res !! "output" = None /\
  res !! "shared" = None.
Proof.
  apply (unwritten_signature_gives_bare_result
           (strict_world (Returns tt) (Returns tt) false) (demo_job true)
           demo_prepared demo_sig (VInt 0) (VInt 7) (VObj 2)).
  - vm_compute; reflexivity.
  - vm_compute; reflexivity.
  - vm_compute; reflexivity.
  - vm_compute; reflexivity.
  - reflexivity.
Defined.

Lemma other_failure_is_reported_witness :
  let w := demo_world ∅ (Some (RuntimeError [VStr "boom"])) [] true in
  let res := captured (demo_job true) (demo_failure w).1.2
               (failure_record (VInt 0) 1 (describe w (RuntimeError [VStr "boom"]))) in
  _execute_substep w (demo_job true) demo_state
  = (Ok res, released (demo_failure w).1.2,
     (demo_failure w).2 ++ [EvClearOutput] ++ release_events (demo_failure w).1.2) /\
  res !! "ret_code" = Some (VInt 1) /\
  res !! "exception" = Some (VExn (describe w (RuntimeError [VStr "boom"]))) /\
  (exists msg, describe w (RuntimeError [VStr "boom"]) = RuntimeError [VStr msg]).
Proof.
  apply (other_failure_is_reported
           (demo_world ∅ (Some (RuntimeError [VStr "boom"])) [] true)
           (demo_job true) demo_state demo_prepared [] (RuntimeError [VStr "boom"])
           (demo_failure (demo_world ∅ (Some (RuntimeError [VStr "boom"])) [] true)).1.2
           (demo_failure (demo_world ∅ (Some (RuntimeError [VStr "boom"])) [] true)).2
           (VInt 0)).
  - vm_compute; reflexivity.
  - vm_compute; reflexivity.
  - reflexivity.
  - vm_compute; reflexivity.
Defined.

Lemma code_window_marks_the_line_witness :
  let plain := fun y : string => "     " +:+ " " +:+ y in
  code_window 2 ["a = 1"; "b = a / 0"; "c = 2"]
  = String.concat nl
      ((plain <$> slice (2 - 3) (2 - 1) ["a = 1"; "b = a / 0"; "c = 2"])
         ++ ("---->" +:+ " " +:+ "b = a / 0")
         :: (plain <$> slice 2 (2 + 3) ["a = 1"; "b = a / 0"; "c = 2"])).
Proof.
  apply (code_window_marks_the_line 2 ["a = 1"; "b = a / 0"; "c = 2"] "b = a / 0").
  - reflexivity.
  - lia.
Defined.


Lemma step_worker_quits_on_none_witness :
  let run := SoS_Worker_run (demo_world ∅ None [] true) demo_engine 1 ∅
               (set_inbox [Message VNone] demo_state) in
  run.1.1 = Ok tt /\
  run.2 = [EvConnectControllers; EvSignal true; EvMasterConnect;
           EvMasterRecv VNone; EvSignal false;
           EvKillAllSubprocesses; EvSignal false; EvCloseSocket "master";
           EvDisconnectControllers] /\
  inbox run.1.2 = [] /\
  env_sockets_open run.1.2 = false /\
  sigterm_handler run.1.2 = false /\
  env_config run.1.2
  = dict_update (env_config (set_inbox [Message VNone] demo_state)) ∅.
Proof.
  apply (step_worker_quits_on_none (demo_world ∅ None [] true) demo_engine 0 ∅
           (set_inbox [Message VNone] demo_state) []).
  reflexivity.
Defined.

Lemma step_worker_tears_down_on_sigterm_witness :
  let run := SoS_Worker_run (demo_world ∅ None [] true) demo_engine 1 ∅
               (set_inbox [Sigterm] demo_state) in
  run.1.1 = Ok tt /\
  run.2 = [EvConnectControllers; EvSignal true; EvMasterConnect;
           EvKillAllSubprocesses; EvSignal false; EvCloseSocket "master";
           EvDisconnectControllers] /\
  inbox run.1.2 = [] /\
  env_sockets_open run.1.2 = false /\
  sigterm_handler run.1.2 = false.
Proof.
  apply (step_worker_tears_down_on_sigterm (demo_world ∅ None [] true)
           demo_engine 0 ∅ (set_inbox [Sigterm] demo_state) []).
  reflexivity.
Defined.

Lemma substep_worker_returns_only_when_told_witness :
  exists before m,
    demo_substep_worker_run.2
    = before ++ [EvMasterSend (VStr "READY"); EvMasterRecv m;
                 EvSignal false; EvKillAllSubprocesses;
                 EvCloseSocket "substep result";
                 EvCloseSocket "substep backend";
                 EvDisconnectControllers] /\
    truthy m = false /\
    env_sockets_open demo_substep_worker_run.1.2 = false /\
    sigterm_handler demo_substep_worker_run.1.2 = false.
Proof.
  apply (substep_worker_returns_only_when_told (demo_world ∅ None [] true) 5
           demo_config
           (set_inbox [Message demo_message; Message VNone] demo_state)).
  vm_compute; reflexivity.
Defined.

Lemma substep_worker_stops_on_falsy_message_witness :
  let run := SoS_SubStep_Worker_run (demo_world ∅ None [] true) 1 demo_config
               (set_inbox [Message (VInt 0)] demo_state) in
  run.1.1 = Ok tt /\
  run.2 = [EvConnectControllers; EvSignal true; EvMasterConnect;
           EvMasterSend (VStr "READY"); EvMasterRecv (VInt 0);
           EvSignal false; EvKillAllSubprocesses;
           EvCloseSocket "substep result"; EvCloseSocket "substep backend";
           EvDisconnectControllers] /\
  inbox run.1.2 = [] /\
  env_sockets_open run.1.2 = false /\
  sigterm_handler run.1.2 = false.
Proof.
  apply (substep_worker_stops_on_falsy_message (demo_world ∅ None [] true) 0
           demo_config (set_inbox [Message (VInt 0)] demo_state) (VInt 0) []
           (<["result_push_socket" := VInt 5555]>
              (<["substep_backend" := VInt 5556]> ∅))
           (VInt 5556)).
  - reflexivity.
  - reflexivity.
  - reflexivity.
  - reflexivity.
Defined.

Lemma nested_workflow_failure_is_forwarded_witness :
  let w := demo_world ∅ None [] true in
  let eng := failing_engine (RuntimeError [VStr "boom"]) in
  let st0 := set_env_config (dict_update (env_config demo_state) workflow_config)
               demo_state in
  let pre := reset_dict w eng (VList []) st0 in
  let run := run_workflow w eng (VInt 1) (VObj 9) (VList []) (VList []) (VDict ∅)
               workflow_config demo_state in
  run.1.1 = (if is_Exception w (RuntimeError [VStr "boom"]) then Ok tt
             else Raise (RuntimeError [VStr "boom"])) /\
  run.2 = pre.2 ++ map EvMasterSend [VStr "progress"]
             ++ (if is_Exception w (RuntimeError [VStr "boom"])
                 then [EvMasterSend (VExn (RuntimeError [VStr "boom"]))] else []).
Proof.
  apply (nested_workflow_failure_is_forwarded (demo_world ∅ None [] true)
           (failing_engine (RuntimeError [VStr "boom"]))
           (VInt 1) (VObj 9) (VList []) (VList []) (VDict ∅) workflow_config
           demo_state [VStr "progress"] (RuntimeError [VStr "boom"])).
  - vm_compute; reflexivity.
  - left. reflexivity.
  - reflexivity.
Defined.
